(** * typestringer: the generator package

    A shallow embedding of [generator.Generator] (its [Generate],
    [defaultwg] and [HandlePackage] methods) together with the properties
    of the include/ignore filter, of the emitted artifact and of the
    error aggregation of a run.

    Go values are modelled as follows.
    - [string] is [String.string]; a slice is a [list]; a nilable
      interface or function value is an [option].
    - An [error] is a small inductive type closed under [errors.Join].
    - Everything the generator does to the outside (writing to an
      [io.Writer], closing an [io.WriteCloser], creating files, loading
      packages) goes through one abstract [world], threaded explicitly.
    - A Go panic is an outcome of its own, distinct from a returned error. *)

From Stdlib Require Import List String Ascii Bool Arith Lia.
Import ListNotations.
Open Scope string_scope.

Set Implicit Arguments.

(** ** Strings and formatting helpers *)

Definition nl : string := String "010"%char EmptyString.

(** [fmt.Sprintln] on string operands: operands separated by one space,
    newline at the end. *)
Definition Sprintln (operands : list string) : string :=
  String.concat " " operands ++ nl.

(** ** Errors *)

#[warnings="-register-all"]
Inductive error : Type :=
| errorString (msg : string)          (* errors.New *)
| joinError (errs : list error)       (* the value built by errors.Join *)
| otherError (msg : string).          (* any other implementation, by its message *)

Definition errors_New (msg : string) : error := errorString msg.

(** [errors.Join]: nil operands are discarded; nil when nothing is left. *)
Definition errors_Join (errs : list (option error)) : option error :=
  match flat_map (fun e => match e with Some x => [x] | None => [] end) errs with
  | [] => None
  | kept => Some (joinError kept)
  end.

(** The [Error()] method. *)
Fixpoint Error (e : error) : string :=
  match e with
  | errorString msg => msg
  | otherError msg => msg
  | joinError errs =>
      (fix lines (l : list error) : string :=
         match l with
         | [] => ""
         | x :: rest =>
             match rest with
             | [] => Error x
             | _ :: _ => Error x ++ nl ++ lines rest
             end
         end) errs
  end.

(** ** Outcomes: a returned value or a panic *)

Inductive panicValue : Type :=
| PanicError (e : error)              (* panic(err) *)
| IndexOutOfRange (i len : nat)       (* s[i] with i >= len(s) *)
| NilDereference                      (* method or call on a nil value *)
| TypeAssertion.                      (* x.(T) on a value of another type *)

Inductive result (A : Type) : Type :=
| Ok (a : A)
| Panic (v : panicValue).
Arguments Panic {A} v.

(** ** Syntax trees and loaded packages (go/ast, go/packages) *)

Inductive Token : Type := IMPORT | CONST | TYPE | VAR.

Inductive Spec : Type :=
| TypeSpec (Name : string)
| ImportSpec
| ValueSpec.

Inductive Decl : Type :=
| GenDecl (Tok : Token) (Specs : list Spec)
| FuncDecl
| BadDecl.

Record File : Type := mkFile {
  Name : string;
  Decls : list Decl
}.

Record Package : Type := mkPackage {
  GoFiles : list string;
  Syntax : list File;
  Errors : list error
}.

(** ** The host: everything outside the generator *)

Class Host : Type := {
  world : Type;
  (* regexp *)
  Regexp : Type;
  MatchString : Regexp -> string -> bool;
  (* io *)
  Writer : Type;
  WriteCloser : Type;
  asWriter : WriteCloser -> Writer;
  Write : Writer -> string -> world -> world * option error;
  Close : WriteCloser -> world -> world * option error;
  (* os, path/filepath *)
  os_Stderr : Writer;
  os_Create : string -> world -> world * (WriteCloser + error);
  filepath_Dir : string -> string;
  filepath_Join : string -> string -> string;
  (* fmt.Sprintf on string operands *)
  Sprintf : string -> list string -> string;
  (* packages.Load *)
  packages_Load : list string -> world -> world * (list Package * option error)
}.

(** ** The computation monad: world passing with panics *)

Section Monad.
Context {host : Host}.

Definition M (A : Type) : Type := world -> world * result A.

Definition ret {A} (a : A) : M A := fun s => (s, Ok a).

Definition panic {A} (v : panicValue) : M A := fun s => (s, Panic v).

Definition bind {A B} (m : M A) (k : A -> M B) : M B :=
  fun s =>
    match m s with
    | (s', Ok a) => k a s'
    | (s', Panic v) => (s', Panic v)
    end.

Definition when (c : bool) (m : M unit) : M unit :=
  if c then m else ret tt.

(** A [for _, x := range xs] loop that updates one local. *)
Fixpoint foldM {A S} (body : S -> A -> M S) (xs : list A) (acc : S) : M S :=
  match xs with
  | [] => ret acc
  | x :: rest => bind (body acc x) (fun acc' => foldM body rest acc')
  end.

(** A [for _, x := range xs] loop run for its effects only. *)
Fixpoint forEach {A} (xs : list A) (body : A -> M unit) : M unit :=
  match xs with
  | [] => ret tt
  | x :: rest => bind (body x) (fun _ => forEach rest body)
  end.
End Monad.

Notation "x <- m ;; k" := (bind m (fun x => k))
  (at level 61, m at next level, right associativity).
Notation "m ;;; k" := (bind m (fun _ => k))
  (at level 61, right associativity).

(** ** The generator *)

Section Generator.
Context {host : Host}.

Definition WriteCloserCreatorT : Type :=
  string -> string -> M (option WriteCloser * option error).

Record Generator : Type := mkGenerator {
  Patterns : list string;
  Includes : list Regexp;
  Ignores : list Regexp;
  Format : string;
  WriteCloserCreator : option WriteCloserCreatorT;
  Output : option WriteCloser;
  DiagnosticOutput : option Writer;
  NoClose : bool;
  Header : string;
  Preamble : string;
  NoPackage : bool
}.

Definition FormatFilename : string := "%s_strings.go".

(** *** Printing.  The results of [fmt.Fprint*] are discarded by every
    caller in the package, so the helpers return [unit]. *)

Definition Fprint (w : Writer) (text : string) : M unit :=
  fun s => (fst (Write w text s), Ok tt).

(** [fmt.Fprintln(g.DiagnosticOutput, operands...)]. *)
Definition diag (g : Generator) (operands : list string) : M unit :=
  match DiagnosticOutput g with
  | None => panic NilDereference
  | Some w => Fprint w (Sprintln operands)
  end.

(** [w.Close()] with its result dropped. *)
Definition closeSink (w : WriteCloser) : M unit :=
  fun s => (fst (Close w s), Ok tt).

(** *** defaultwg *)

Definition defaultwg (g : Generator) : WriteCloserCreatorT :=
  fun path mod_ =>
    let fn := filepath_Join path (Sprintf FormatFilename [mod_]) in
    fun s =>
      match os_Create fn s with
      | (s', inr err) =>
          (diag g [Error err] ;;; ret (None, Some err)) s'
      | (s', inl w) =>
          (diag g ["writing file:"; fn] ;;; ret (Some w, None)) s'
      end.

(** *** HandlePackage: the filter (one iteration of the [decl:] loop) *)

(** [for _, r := range rs { if r.MatchString(tn) { ... } }], leaving at
    the first match. *)
Fixpoint anyMatch (rs : list Regexp) (tn : string) : bool :=
  match rs with
  | [] => false
  | r :: rest => if MatchString r tn then true else anyMatch rest tn
  end.

Definition handleSpec (g : Generator) (typenames : list string) (sp : Spec)
  : M (list string) :=
  match sp with
  | TypeSpec tn =>
      if anyMatch (Ignores g) tn then
        diag g ["ignoring:"; tn] ;;; ret typenames
      else if (0 <? List.length (Includes g))%nat && negb (anyMatch (Includes g) tn) then
        diag g ["not included:"; tn] ;;; ret typenames
      else
        diag g ["including:"; tn] ;;; ret (typenames ++ [tn])%list
  | _ => panic TypeAssertion
  end.

Definition handleDecl (g : Generator) (typenames : list string) (decl : Decl)
  : M (list string) :=
  match decl with
  | GenDecl TYPE specs => foldM (handleSpec g) specs typenames
  | _ => ret typenames
  end.

(** One iteration of [for _, a := range p.Syntax]; the loop state is the
    pair of locals [(packagename, typenames)]. *)
Definition handleFile (g : Generator) (st : string * list string) (a : File)
  : M (string * list string) :=
  typenames <- foldM (handleDecl g) (Decls a) (snd st) ;;
  ret (Name a, typenames).

Definition collect (g : Generator) (p : Package) : M (string * list string) :=
  foldM (handleFile g) (Syntax p) ("", []).

(** *** HandlePackage: the sink *)

(** [inl err] is the early [return err]. *)
Definition resolveSink (g : Generator) (gofile0 packagename : string)
  : M (error + WriteCloser) :=
  match Output g with
  | Some w => ret (inr w)
  | None =>
      match WriteCloserCreator g with
      | None => panic NilDereference
      | Some create =>
          r <- create (filepath_Dir gofile0) packagename ;;
          match r with
          | (_, Some err) => ret (inl err)
          | (None, None) => panic (PanicError (errors_New "nil WriteCloser"))
          | (Some w, None) => ret (inr w)
          end
      end
  end.

(** *** HandlePackage: the emission *)

Definition emit (g : Generator) (w : WriteCloser)
           (packagename : string) (typenames : list string) : M unit :=
  when (0 <? String.length (Header g))%nat
       (Fprint (asWriter w) (Header g)) ;;;
  when (negb (NoPackage g))
       (Fprint (asWriter w) (Sprintf ("package %s" ++ nl ++ nl) [packagename])) ;;;
  when (0 <? String.length (Preamble g))%nat
       (Fprint (asWriter w) (Preamble g ++ nl ++ nl)) ;;;
  forEach typenames
          (fun tn => Fprint (asWriter w) (Sprintf (Format g) [tn; tn])) ;;;
  when (negb (NoClose g)) (closeSink w).

Definition HandlePackage (g : Generator) (p : Package) : M (option error) :=
  match GoFiles p with
  | [] => ret (Some (errors_New "no Go files in package"))
  | gofile0 :: _ =>
      st <- collect g p ;;
      sink <- resolveSink g gofile0 (fst st) ;;
      match sink with
      | inl err => ret (Some err)
      | inr w => emit g w (fst st) (snd st) ;;; ret None
      end
  end.

(** *** Generate *)

(** The two assignments at the top of [Generate]. *)
Definition withDefaults (g : Generator) : Generator :=
  let d := match DiagnosticOutput g with
           | None => Some os_Stderr
           | Some w => Some w
           end in
  let g1 := mkGenerator (Patterns g) (Includes g) (Ignores g) (Format g)
              (WriteCloserCreator g) (Output g) d
              (NoClose g) (Header g) (Preamble g) (NoPackage g) in
  match WriteCloserCreator g with
  | Some _ => g1
  | None =>
      mkGenerator (Patterns g) (Includes g) (Ignores g) (Format g)
        (Some (defaultwg g1)) (Output g) d
        (NoClose g) (Header g) (Preamble g) (NoPackage g)
  end.

(** [g.Patterns[i]]. *)
Definition index (l : list string) (i : nat) : M string :=
  match nth_error l i with
  | Some x => ret x
  | None => panic (IndexOutOfRange i (List.length l))
  end.

(** The body of [for i, p := range ps] below its first statement; the
    loop state is [reterr]. *)
Definition afterPatternLine (g : Generator) (reterr : option error)
           (p : Package) : M (option error) :=
  if (0 <? List.length (Errors p))%nat then
    diag g ["found package errors, not continuing"] ;;;
    foldM (fun acc err =>
             diag g [Error err] ;;; ret (errors_Join [acc; Some err]))
          (Errors p) reterr
  else
    err <- HandlePackage g p ;;
    match err with
    | Some e =>
        diag g ["generate error:"; Error e] ;;;
        ret (errors_Join [reterr; Some e])
    | None => ret reterr
    end.

(** The body of [for i, p := range ps]: the line naming [g.Patterns[i]],
    then the rest. *)
Definition handleLoaded (g : Generator) (i : nat) (reterr : option error)
           (p : Package) : M (option error) :=
  pat <- index (Patterns g) i ;;
  diag g ["package with pattern"; pat] ;;;
  afterPatternLine g reterr p.

Fixpoint packageLoop (g : Generator) (i : nat) (ps : list Package)
         (reterr : option error) : M (option error) :=
  match ps with
  | [] => ret reterr
  | p :: rest =>
      reterr' <- handleLoaded g i reterr p ;;
      packageLoop g (S i) rest reterr'
  end.

Definition Generate (g0 : Generator) : M (option error) :=
  let g := withDefaults g0 in
  fun s =>
    match packages_Load (Patterns g) s with
    | (s', (_, Some err)) => (s', Ok (Some err))
    | (s', ([], None)) =>
        (diag g ["no packages loaded"] ;;;
         ret (Some (errors_New "no packages loaded"))) s'
    | (s', (ps, None)) => packageLoop g 0 ps None s'
    end.
End Generator.

(** ** Specification-level functions

    Pure descriptions of what the loops of [HandlePackage] and [Generate]
    compute, used to state the properties below. *)

Section Specification.
Context {host : Host}.

(** The Pattern Matcher contract, in the words of the design:
    an ignore match rejects; otherwise a non-empty include list must
    match; an empty include list accepts. *)
Definition included (name : string) (includes ignores : list Regexp) : bool :=
  if existsb (fun r => MatchString r name) ignores then false
  else match includes with
       | [] => true
       | _ :: _ => existsb (fun r => MatchString r name) includes
       end.

(** What one accepted or rejected name adds to [typenames]. *)
Definition keep (g : Generator) (tn : string) : list string :=
  if included tn (Includes g) (Ignores g) then [tn] else [].

(** Names of the type specifiers of one declaration, in source order. *)
Definition specNames (specs : list Spec) : list string :=
  flat_map (fun sp => match sp with TypeSpec tn => [tn] | _ => [] end) specs.

Definition declNames (decl : Decl) : list string :=
  match decl with
  | GenDecl TYPE specs => specNames specs
  | _ => []
  end.

(** File-list order, then declaration order within a file. *)
Definition declaredNames (p : Package) : list string :=
  flat_map (fun a => flat_map declNames (Decls a)) (Syntax p).

Definition acceptedNames (g : Generator) (p : Package) : list string :=
  filter (fun tn => included tn (Includes g) (Ignores g)) (declaredNames p).

(** The declared package name of the last file visited. *)
Definition lastPackageName (p : Package) : string :=
  last (map Name (Syntax p)) "".

(** The texts handed to the sink before the stubs: header, package
    clause, preamble, each only when configured. *)
Definition prelude (g : Generator) (packagename : string) : list string :=
  ((if (0 <? String.length (Header g))%nat then [Header g] else []) ++
   (if NoPackage g then []
    else [Sprintf ("package %s" ++ nl ++ nl)%string [packagename]]) ++
   (if (0 <? String.length (Preamble g))%nat
    then [(Preamble g ++ nl ++ nl)%string] else []))%list.

(** One stub per name, in the order of the names. *)
Definition stubs (g : Generator) (typenames : list string) : list string :=
  map (fun tn => Sprintf (Format g) [tn; tn]) typenames.

(** The texts handed to the sink, in order. *)
Definition chunks (g : Generator) (packagename : string)
           (typenames : list string) : list string :=
  (prelude g packagename ++ stubs g typenames)%list.

(** Every text is written, whatever the earlier writes returned. *)
Definition writeAll (w : Writer) (texts : list string) (s : world) : world :=
  fold_left (fun s' text => fst (Write w text s')) texts s.

Definition finish (g : Generator) (w : WriteCloser) (s : world) : world :=
  if NoClose g then s else fst (Close w s).

(** [reterr] after joining a package's diagnostics one by one. *)
Definition joinEach (reterr : option error) (errs : list error) : option error :=
  fold_left (fun acc err => errors_Join [acc; Some err]) errs reterr.

(** The diagnostic stream after each error of a package was printed. *)
Definition printEach (d : Writer) (errs : list error) (s : world) : world :=
  writeAll d (map (fun err => Sprintln [Error err]) errs) s.

(** The diagnostic writer in force during [Generate]. *)
Definition diagnosticWriter (g : Generator) : Writer :=
  match DiagnosticOutput g with
  | Some w => w
  | None => os_Stderr
  end.

(** No type assertion of [HandlePackage] can fail on [p]. *)
Definition wellFormedDecl (decl : Decl) : bool :=
  match decl with
  | GenDecl TYPE specs =>
      forallb (fun sp => match sp with TypeSpec _ => true | _ => false end) specs
  | _ => true
  end.

Definition wellFormed (p : Package) : bool :=
  forallb (fun a => forallb wellFormedDecl (Decls a)) (Syntax p).
End Specification.

(** ** A concrete host, after the package's tests

    [MultiBuffer] is the sink of the tests: writes go to a buffer, [Close]
    moves the buffer to the history.  [FailingSink] refuses every write and
    records the attempt.  Patterns are either substring searches or
    [^...$] anchored matches, which is what the tests use. *)

Module Fixture.

Inductive pattern : Type :=
| Sub (text : string)        (* regexp.MustCompile(text), no metacharacters *)
| Anchored (text : string).  (* regexp.MustCompile("^" + text + "$") *)

Definition isSubstring (needle hay : string) : bool :=
  match String.index 0 needle hay with
  | Some _ => true
  | None => false
  end.

Definition matchString (r : pattern) (s : string) : bool :=
  match r with
  | Sub text => isSubstring text s
  | Anchored text => String.eqb text s
  end.

Inductive writer : Type := Stderr | BufferW | FailingW.
Inductive sink : Type := MultiBuffer | FailingSink.

Definition sinkWriter (w : sink) : writer :=
  match w with
  | MultiBuffer => BufferW
  | FailingSink => FailingW
  end.

Record state : Type := mkState {
  b : string;                    (* MultiBuffer.b *)
  history : list string;         (* MultiBuffer.history *)
  diagnostics : list string;     (* what reached the diagnostic stream *)
  attempts : list string;        (* writes refused by FailingSink *)
  closes : nat;                  (* Close calls on FailingSink *)
  loaded : list Package * option error   (* what packages.Load resolves *)
}.

Definition write (w : writer) (text : string) (s : state)
  : state * option error :=
  match w with
  | Stderr =>
      (mkState (b s) (history s) (diagnostics s ++ [text])%list (attempts s)
         (closes s) (loaded s), None)
  | BufferW =>
      (mkState (b s ++ text) (history s) (diagnostics s) (attempts s)
         (closes s) (loaded s), None)
  | FailingW =>
      (mkState (b s) (history s) (diagnostics s) (attempts s ++ [text])%list
         (closes s) (loaded s), Some (otherError "write refused"))
  end.

Definition close (w : sink) (s : state) : state * option error :=
  match w with
  | MultiBuffer =>
      (mkState "" (history s ++ [b s])%list (diagnostics s) (attempts s)
         (closes s) (loaded s), None)
  | FailingSink =>
      (mkState (b s) (history s) (diagnostics s) (attempts s)
         (S (closes s)) (loaded s), None)
  end.

(** [%s] verbs only. *)
Fixpoint sprintf (format : string) (operands : list string) : string :=
  match format with
  | EmptyString => EmptyString
  | String c rest =>
      match c, rest with
      | "%"%char, String "s"%char rest' =>
          match operands with
          | x :: operands' => x ++ sprintf rest' operands'
          | [] => "%!s(MISSING)" ++ sprintf rest' []
          end
      | _, _ => String c (sprintf rest operands)
      end
  end.

#[local] Instance host : Host := {|
  world := state;
  Regexp := pattern;
  MatchString := matchString;
  Writer := writer;
  WriteCloser := sink;
  asWriter := sinkWriter;
  Write := write;
  Close := close;
  os_Stderr := Stderr;
  os_Create := fun _ s => (s, inl MultiBuffer);
  filepath_Dir := fun path => path;
  filepath_Join := fun dir file => dir ++ "/" ++ file;
  Sprintf := sprintf;
  packages_Load := fun _ s => (s, loaded s)
|}.

Definition start (ps : list Package) (err : option error) : state :=
  mkState "" [] [] [] 0 (ps, err).

(** testdata/one: [type Int int; type String string; type Struct struct{}]. *)
Definition pkgOne : Package :=
  mkPackage ["testdata/one/one.go"]
    [mkFile "one" [GenDecl IMPORT [ImportSpec];
                   GenDecl TYPE [TypeSpec "Int"];
                   GenDecl TYPE [TypeSpec "String"];
                   FuncDecl;
                   GenDecl TYPE [TypeSpec "Struct"]]]
    [].

(** testdata/two: two files of one package. *)
Definition pkgTwo : Package :=
  mkPackage ["testdata/two/two1.go"; "testdata/two/two2.go"]
    [mkFile "two" [GenDecl TYPE [TypeSpec "FIRST"]];
     mkFile "two" [GenDecl TYPE [TypeSpec "SECOND"]]]
    [].

(** Two files that disagree on the package clause. *)
Definition pkgDisagree : Package :=
  mkPackage ["a.go"; "b.go"]
    [mkFile "alpha" [GenDecl TYPE [TypeSpec "A"]];
     mkFile "beta" [GenDecl TYPE [TypeSpec "B"]]]
    [].

Definition pkgNoFiles : Package := mkPackage [] [] [].

Definition pkgBroken : Package :=
  mkPackage ["bad/bad.go"] [mkFile "bad" []]
    [otherError "bad.go:1:1: expected declaration"].

Definition creator (w : option sink) (err : option error)
  : WriteCloserCreatorT :=
  fun _ _ => ret (w, err).

(** The base generator of [TestOne], with a one-line preamble. *)
Definition base : Generator :=
  mkGenerator ["./testdata/one"] [] [] ("%s,%s" ++ nl)
    (Some (creator (Some MultiBuffer) None)) None (Some Stderr) false
    ("// the header" ++ nl) "import fmt" false.

Definition withFilters (includes ignores : list pattern) : Generator :=
  mkGenerator (Patterns base) includes ignores (Format base)
    (WriteCloserCreator base) (Output base) (DiagnosticOutput base)
    (NoClose base) (Header base) (Preamble base) (NoPackage base).

Definition withCreator (c : option WriteCloserCreatorT)
           (out : option sink) (pats : list string) : Generator :=
  mkGenerator pats [] [] (Format base) c out (DiagnosticOutput base)
    (NoClose base) (Header base) (Preamble base) (NoPackage base).

End Fixture.

(** ** The flag value of the command (package main) *)

(** [type stringsvar []string]. *)
Definition stringsvar : Type := list string.

(** The [String] method: [strings.Join] of the elements with a comma. *)
Definition stringsvar_String (s : stringsvar) : string :=
  String.concat "," s.

(** The [Set] method: the new value of the receiver and the returned
    error. *)
Definition stringsvar_Set (s : stringsvar) (n : string)
  : stringsvar * option error :=
  ((s ++ [n])%list, None).

(** The receiver after one [Set] per element of [ns], in order. *)
Definition setEach (s : stringsvar) (ns : list string) : stringsvar :=
  fold_left (fun acc n => fst (stringsvar_Set acc n)) ns s.

(** ** More specification-level functions *)

Section Narration.
Context {host : Host}.

(** The diagnostic line the filter prints for one type name. *)
Definition decisionLine (g : Generator) (tn : string) : string :=
  Sprintln [if existsb (fun r => MatchString r tn) (Ignores g) then "ignoring:"
            else if included tn (Includes g) (Ignores g) then "including:"
            else "not included:";
            tn].

(** A loaded package that [Generate] can process without a failure of its
    own: no load diagnostics, a source file, and type declarations that
    hold type specifiers only. *)
Definition healthy (p : Package) : bool :=
  match Errors p, GoFiles p with
  | [], _ :: _ => wellFormed p
  | _, _ => false
  end.

(** The messages an accumulated error is made of. *)
Definition messageLines (reterr : option error) (errs : list error)
  : list string :=
  ((match reterr with Some r => [Error r] | None => [] end) ++
   map Error errs)%list.
(** The generator with one field assigned. *)
Definition withWriteCloserCreator (g : Generator)
           (c : option WriteCloserCreatorT) : Generator :=
  mkGenerator (Patterns g) (Includes g) (Ignores g) (Format g) c (Output g)
    (DiagnosticOutput g) (NoClose g) (Header g) (Preamble g) (NoPackage g).

Definition withNoClose (g : Generator) (noclose : bool) : Generator :=
  mkGenerator (Patterns g) (Includes g) (Ignores g) (Format g)
    (WriteCloserCreator g) (Output g) (DiagnosticOutput g) noclose
    (Header g) (Preamble g) (NoPackage g).
End Narration.

(** * Properties *)

(** ** The monad and the loops *)

Section MonadFacts.
Context {host : Host}.

Lemma bind_Ok A B (m : M A) (k : A -> M B) s s' a :
  m s = (s', Ok a) -> bind m k s = k a s'.
Proof. intros Hm. unfold bind. now rewrite Hm. Qed.

Lemma bind_Panic A B (m : M A) (k : A -> M B) s s' v :
  m s = (s', Panic v) -> bind m k s = (s', Panic v).
Proof. intros Hm. unfold bind. now rewrite Hm. Qed.

Lemma bind_inv_Ok A B (m : M A) (k : A -> M B) s s' y :
  bind m k s = (s', Ok y) ->
  exists s1 a, m s = (s1, Ok a) /\ k a s1 = (s', Ok y).
Proof.
  unfold bind. destruct (m s) as [s1 [a | v]]; intros Hk.
  - now exists s1, a.
  - discriminate.
Qed.

Lemma forEach_Fprint w (f : string -> string) xs s :
  forEach xs (fun x => Fprint w (f x)) s = (writeAll w (map f xs) s, Ok tt).
Proof.
  revert s. induction xs as [| x xs IH]; intros s; simpl.
  - reflexivity.
  - unfold bind, Fprint at 1. apply IH.
Qed.

Lemma writeAll_app w xs ys s :
  writeAll w (xs ++ ys) s = writeAll w ys (writeAll w xs s).
Proof. unfold writeAll. apply fold_left_app. Qed.

Lemma diag_Some g d operands s :
  DiagnosticOutput g = Some d ->
  diag g operands s = (fst (Write d (Sprintln operands) s), Ok tt).
Proof. intros Hd. unfold diag. now rewrite Hd. Qed.

Lemma diag_inv_Ok g operands s s' u :
  diag g operands s = (s', Ok u) ->
  exists d, DiagnosticOutput g = Some d /\
            s' = fst (Write d (Sprintln operands) s).
Proof.
  unfold diag. destruct (DiagnosticOutput g) as [d |].
  - unfold Fprint. intros [= <- _]. now exists d.
  - discriminate.
Qed.
End MonadFacts.

(** ** The filter *)

Section FilterFacts.
Context {host : Host}.

Lemma anyMatch_existsb rs tn :
  anyMatch rs tn = existsb (fun r => MatchString r tn) rs.
Proof.
  induction rs as [| r rs IH]; simpl.
  - reflexivity.
  - rewrite IH. now destruct (MatchString r tn).
Qed.

Lemma anyMatch_true rs tn :
  anyMatch rs tn = true <-> exists r, In r rs /\ MatchString r tn = true.
Proof. rewrite anyMatch_existsb. apply existsb_exists. Qed.

Lemma anyMatch_false rs tn :
  anyMatch rs tn = false <-> forall r, In r rs -> MatchString r tn = false.
Proof.
  rewrite anyMatch_existsb. split.
  - intros H r Hr. destruct (MatchString r tn) eqn:E; [| reflexivity].
    assert (existsb (fun r => MatchString r tn) rs = true)
      by (apply existsb_exists; eauto).
    congruence.
  - intros H. destruct (existsb _ rs) eqn:E; [| reflexivity].
    apply existsb_exists in E as (r & Hr & Hm). rewrite (H r Hr) in Hm.
    discriminate.
Qed.

(** The two tests of the loop body decide exactly [included]. *)
Lemma rejects_included g tn :
  included tn (Includes g) (Ignores g) =
  negb (anyMatch (Ignores g) tn) &&
  negb ((0 <? List.length (Includes g))%nat && negb (anyMatch (Includes g) tn)).
Proof.
  unfold included. rewrite <- !anyMatch_existsb.
  destruct (anyMatch (Ignores g) tn); simpl; [reflexivity |].
  destruct (Includes g) as [| r rs]; simpl; [reflexivity |].
  now destruct (MatchString r tn), (anyMatch rs tn).
Qed.

Lemma handleSpec_inv_Ok g tns sp s s' tns' :
  handleSpec g tns sp s = (s', Ok tns') ->
  exists tn, sp = TypeSpec tn /\ tns' = (tns ++ keep g tn)%list.
Proof.
  destruct sp as [tn | |]; simpl; try discriminate.
  intros H. exists tn. split; [reflexivity |].
  unfold keep. rewrite rejects_included.
  destruct (anyMatch (Ignores g) tn); simpl in *.
  - apply bind_inv_Ok in H as (s1 & u & _ & [= _ <-]). now rewrite app_nil_r.
  - destruct ((0 <? List.length (Includes g))%nat && negb (anyMatch (Includes g) tn));
      simpl in *; apply bind_inv_Ok in H as (s1 & u & _ & [= _ <-]).
    + now rewrite app_nil_r.
    + reflexivity.
Qed.

Lemma handleSpec_total g d tns tn s :
  DiagnosticOutput g = Some d ->
  exists s', handleSpec g tns (TypeSpec tn) s = (s', Ok (tns ++ keep g tn)%list).
Proof.
  intros Hd.
  destruct (handleSpec g tns (TypeSpec tn) s) as [s' [r | v]] eqn:E.
  - exists s'. apply handleSpec_inv_Ok in E as (tn' & [= <-] & ->). reflexivity.
  - exfalso. simpl in E.
    destruct (anyMatch (Ignores g) tn);
      [| destruct ((0 <? List.length (Includes g))%nat && negb (anyMatch (Includes g) tn))];
      (erewrite bind_Ok in E by (apply diag_Some; eassumption)); discriminate.
Qed.

Lemma filter_keep g tn l :
  filter (fun x => included x (Includes g) (Ignores g)) (tn :: l) =
  (keep g tn ++ filter (fun x => included x (Includes g) (Ignores g)) l)%list.
Proof. simpl. unfold keep. now destruct (included tn _ _). Qed.

Lemma specs_inv_Ok g specs : forall tns s s' tns',
  foldM (handleSpec g) specs tns s = (s', Ok tns') ->
  tns' = (tns ++ filter (fun x => included x (Includes g) (Ignores g))
                   (specNames specs))%list.
Proof.
  induction specs as [| sp specs IH]; intros tns s s' tns' H; simpl in H.
  - injection H as _ <-. simpl. now rewrite app_nil_r.
  - apply bind_inv_Ok in H as (s1 & tns1 & H1 & H2).
    apply handleSpec_inv_Ok in H1 as (tn & -> & ->).
    apply IH in H2. subst tns'.
    change (specNames (TypeSpec tn :: specs)) with (tn :: specNames specs).
    rewrite filter_keep. now rewrite app_assoc.
Qed.

Lemma decl_inv_Ok g decl tns s s' tns' :
  handleDecl g tns decl s = (s', Ok tns') ->
  tns' = (tns ++ filter (fun x => included x (Includes g) (Ignores g))
                   (declNames decl))%list.
Proof.
  destruct decl as [[] specs | |]; simpl;
    try (intros [= _ <-]; now rewrite app_nil_r).
  apply specs_inv_Ok.
Qed.

Lemma decls_inv_Ok g decls : forall tns s s' tns',
  foldM (handleDecl g) decls tns s = (s', Ok tns') ->
  tns' = (tns ++ filter (fun x => included x (Includes g) (Ignores g))
                   (flat_map declNames decls))%list.
Proof.
  induction decls as [| decl decls IH]; intros tns s s' tns' H; simpl in H.
  - injection H as _ <-. simpl. now rewrite app_nil_r.
  - apply bind_inv_Ok in H as (s1 & tns1 & H1 & H2).
    apply decl_inv_Ok in H1. apply IH in H2. subst.
    simpl. now rewrite filter_app, app_assoc.
Qed.

Lemma last_nonempty_default A (x : A) l d d' :
  last (x :: l) d = last (x :: l) d'.
Proof.
  revert x. induction l as [| y l IH]; intros x; [reflexivity |].
  change (last (y :: l) d = last (y :: l) d'). apply IH.
Qed.

Lemma files_inv_Ok g files : forall st s s' st',
  foldM (handleFile g) files st s = (s', Ok st') ->
  fst st' = last (map Name files) (fst st) /\
  snd st' = (snd st ++ filter (fun x => included x (Includes g) (Ignores g))
               (flat_map (fun a => flat_map declNames (Decls a)) files))%list.
Proof.
  induction files as [| a files IH]; intros st s s' st' H; simpl in H.
  - injection H as _ <-. simpl. now rewrite app_nil_r.
  - apply bind_inv_Ok in H as (s1 & st1 & H1 & H2).
    unfold handleFile in H1.
    apply bind_inv_Ok in H1 as (s0 & tns & H0 & [= _ <-]).
    apply decls_inv_Ok in H0. apply IH in H2 as [Hn Ht]. simpl in *.
    split.
    + rewrite Hn. destruct files as [| f files]; [reflexivity |].
      change (last (Name a :: map Name (f :: files)) (fst st))
        with (last (map Name (f :: files)) (fst st)).
      apply last_nonempty_default.
    + rewrite Ht, H0. now rewrite filter_app, app_assoc.
Qed.

Lemma collect_inv_Ok g p s s' st :
  collect g p s = (s', Ok st) ->
  st = (lastPackageName p, acceptedNames g p).
Proof.
  intros H. apply files_inv_Ok in H as [Hn Ht]. simpl in *.
  destruct st as [pn tns]. simpl in *. now subst.
Qed.
End FilterFacts.

(** ** Running the filter to the end *)

Section CollectFacts.
Context {host : Host}.

Lemma specs_total g d specs :
  DiagnosticOutput g = Some d ->
  forallb (fun sp => match sp with TypeSpec _ => true | _ => false end) specs = true ->
  forall tns s, exists s' tns', foldM (handleSpec g) specs tns s = (s', Ok tns').
Proof.
  intros Hd. induction specs as [| sp specs IH]; intros Hwf tns s.
  - now exists s, tns.
  - simpl in Hwf. apply andb_prop in Hwf as [Hsp Hwf].
    destruct sp as [tn | |]; try discriminate.
    destruct (handleSpec_total g tns tn s Hd) as [s1 H1].
    destruct (IH Hwf (tns ++ keep g tn)%list s1) as (s' & tns' & H2).
    exists s', tns'. simpl foldM. now erewrite bind_Ok by exact H1.
Qed.

Lemma decls_total g d decls :
  DiagnosticOutput g = Some d ->
  forallb wellFormedDecl decls = true ->
  forall tns s, exists s' tns', foldM (handleDecl g) decls tns s = (s', Ok tns').
Proof.
  intros Hd. induction decls as [| decl decls IH]; intros Hwf tns s.
  - now exists s, tns.
  - simpl in Hwf. apply andb_prop in Hwf as [Hdecl Hwf].
    assert (exists s1 tns1, handleDecl g tns decl s = (s1, Ok tns1))
      as (s1 & tns1 & H1).
    { destruct decl as [[] specs | |]; simpl;
        try (now exists s, tns).
      now apply specs_total with (d := d). }
    destruct (IH Hwf tns1 s1) as (s' & tns' & H2).
    exists s', tns'. simpl foldM. now erewrite bind_Ok by exact H1.
Qed.

Lemma files_total g d files :
  DiagnosticOutput g = Some d ->
  forallb (fun a => forallb wellFormedDecl (Decls a)) files = true ->
  forall st s, exists s' st', foldM (handleFile g) files st s = (s', Ok st').
Proof.
  intros Hd. induction files as [| a files IH]; intros Hwf st s.
  - now exists s, st.
  - simpl in Hwf. apply andb_prop in Hwf as [Ha Hwf].
    destruct (decls_total g (Decls a) Hd Ha (snd st) s) as (s1 & tns1 & H1).
    destruct (IH Hwf (Name a, tns1) s1) as (s' & st' & H2).
    exists s', st'. simpl foldM.
    erewrite bind_Ok; [exact H2 |].
    unfold handleFile. now erewrite bind_Ok by exact H1.
Qed.

Lemma collect_total g d p s :
  DiagnosticOutput g = Some d ->
  wellFormed p = true ->
  exists s', collect g p s = (s', Ok (lastPackageName p, acceptedNames g p)).
Proof.
  intros Hd Hwf.
  destruct (files_total g (Syntax p) Hd Hwf ("", []) s) as (s' & st & H).
  exists s'. fold (collect g p) in H.
  now pose proof (collect_inv_Ok g p s H) as ->.
Qed.

Lemma emit_writes g w pn tns s :
  emit g w pn tns s =
  (finish g w (writeAll (asWriter w) (chunks g pn tns) s), Ok tt).
Proof.
  unfold emit, chunks, prelude, stubs, finish, when, closeSink.
  rewrite !writeAll_app.
  assert (Hstubs : forall s0,
             forEach tns (fun tn => Fprint (asWriter w) (Sprintf (Format g) [tn; tn])) s0 =
             (writeAll (asWriter w)
                (map (fun tn => Sprintf (Format g) [tn; tn]) tns) s0, Ok tt))
    by (intros s0; apply forEach_Fprint with (f := fun tn => Sprintf (Format g) [tn; tn])).
  unfold bind. 
  destruct (0 <? String.length (Header g))%nat, (NoPackage g),
    (0 <? String.length (Preamble g))%nat, (NoClose g);
    cbn [negb ret Fprint writeAll fold_left fst];
    rewrite Hstubs; reflexivity.
Qed.

Lemma HandlePackage_inv_None g p s s' :
  HandlePackage g p s = (s', Ok None) ->
  exists gofile0 rest s1 s2 w,
    GoFiles p = gofile0 :: rest /\
    collect g p s = (s1, Ok (lastPackageName p, acceptedNames g p)) /\
    resolveSink g gofile0 (lastPackageName p) s1 = (s2, Ok (inr w)) /\
    s' = finish g w
           (writeAll (asWriter w)
              (chunks g (lastPackageName p) (acceptedNames g p)) s2).
Proof.
  unfold HandlePackage. destruct (GoFiles p) as [| gofile0 rest]; [discriminate |].
  intros H. apply bind_inv_Ok in H as (s1 & st & Hc & H).
  apply bind_inv_Ok in H as (s2 & sink & Hr & H).
  pose proof (collect_inv_Ok g p s Hc) as ->. simpl in *.
  destruct sink as [err | w]; [discriminate |].
  apply bind_inv_Ok in H as (s3 & u & He & [= <-]).
  rewrite emit_writes in He. injection He as <-.
  now exists gofile0, rest, s1, s2, w.
Qed.
End CollectFacts.

(** ** The include/ignore filter *)

Section FilterTheorems.
Context {host : Host}.

(** C1.  A name matched by some ignore pattern never reaches the list of
    names whose stubs are emitted, whatever the include list contains:
    the loop body leaves [typenames] unchanged for it, and the list
    collected for a whole package does not contain it. *)
Theorem ignore_takes_precedence (g : Generator) (r : Regexp) (tn : string) :
  In r (Ignores g) ->
  MatchString r tn = true ->
  (forall typenames s s' typenames',
      handleSpec g typenames (TypeSpec tn) s = (s', Ok typenames') ->
      typenames' = typenames) /\
  (forall p s s' packagename typenames,
      collect g p s = (s', Ok (packagename, typenames)) ->
      ~ In tn typenames).
Proof.
  intros Hr Hm.
  assert (Hinc : included tn (Includes g) (Ignores g) = false).
  { unfold included.
    replace (existsb (fun r0 => MatchString r0 tn) (Ignores g)) with true;
      [reflexivity |].
    symmetry. apply existsb_exists. eauto. }
  split.
  - intros tns s s' tns' H.
    apply handleSpec_inv_Ok in H as (tn' & [= <-] & ->).
    unfold keep. rewrite Hinc. apply app_nil_r.
  - intros p s s' pn tns H Hin.
    apply collect_inv_Ok in H. injection H as _ ->.
    unfold acceptedNames in Hin. apply filter_In in Hin as [_ Hin].
    congruence.
Qed.

(** C2.  With a diagnostic stream in place the loop body always returns,
    and it appends the name or leaves [typenames] alone.  With an empty
    include list the name is appended exactly when no ignore pattern
    matches it; with a non-empty include list, exactly when no ignore
    pattern matches it and some include pattern does. *)
Theorem filter_decision (g : Generator) (d : Writer) (tn : string)
        (typenames : list string) (s : world) :
  DiagnosticOutput g = Some d ->
  exists s' typenames',
    handleSpec g typenames (TypeSpec tn) s = (s', Ok typenames') /\
    (typenames' = (typenames ++ [tn])%list \/ typenames' = typenames) /\
    (Includes g = [] ->
     (typenames' = (typenames ++ [tn])%list <->
      forall r, In r (Ignores g) -> MatchString r tn = false)) /\
    (Includes g <> [] ->
     (typenames' = (typenames ++ [tn])%list <->
      (forall r, In r (Ignores g) -> MatchString r tn = false) /\
      exists r, In r (Includes g) /\ MatchString r tn = true)).
Proof.
  intros Hd.
  destruct (handleSpec_total g typenames tn s Hd) as [s' H].
  exists s', (typenames ++ keep g tn)%list. split; [exact H |].
  assert (Hneq : (typenames ++ [] : list string)%list <> (typenames ++ [tn])%list).
  { intros E. apply (f_equal (@List.length string)) in E.
    rewrite !length_app in E. simpl in E. lia. }
  unfold keep, included. rewrite <- !anyMatch_existsb.
  destruct (anyMatch (Ignores g) tn) eqn:Eig.
  - (* ignored *)
    apply anyMatch_true in Eig as (r & Hr & Hm).
    split; [right; apply app_nil_r |].
    split; intros _; (split; [intros E; contradiction |]).
    + intros Hno. rewrite (Hno r Hr) in Hm. discriminate.
    + intros [Hno _]. rewrite (Hno r Hr) in Hm. discriminate.
  - pose proof (proj1 (anyMatch_false _ _) Eig) as Hno.
    destruct (Includes g) as [| r0 rs] eqn:Einc.
    + split; [now left |]. split; [| intros Hc; now contradiction Hc].
      intros _. split; [intros _; exact Hno | reflexivity].
    + rewrite anyMatch_existsb.
      destruct (existsb (fun r => MatchString r tn) (r0 :: rs)) eqn:Ein.
      * split; [now left |]. split; [discriminate |].
        intros _. split; [| reflexivity].
        intros _. split; [exact Hno |]. now apply existsb_exists.
      * split; [right; apply app_nil_r |]. split; [discriminate |].
        intros _. split; [intros E; contradiction |].
        intros [_ Hex]. apply existsb_exists in Hex. congruence.
Qed.
End FilterTheorems.

(** C1 at the "include and ignore" case of the tests: [String] is matched
    by an include and by an ignore pattern and is not collected. *)
Lemma ignore_takes_precedence_witness :
  ~ In "String" ["Int"].
Proof.
  refine (proj2 (@ignore_takes_precedence Fixture.host
                   (Fixture.withFilters
                      [Fixture.Sub "String"; Fixture.Anchored "Int"]
                      [Fixture.Sub "String"])
                   (Fixture.Sub "String") "String" _ _)
                Fixture.pkgOne (Fixture.start [Fixture.pkgOne] None) _ "one" ["Int"] _).
  - simpl. left. reflexivity.
  - reflexivity.
  - reflexivity.
Defined.

(** C2 at a name with a non-empty include list. *)
Lemma filter_decision_witness :
  exists s' typenames',
    handleSpec (host := Fixture.host)
      (Fixture.withFilters [Fixture.Anchored "Int"] [Fixture.Sub "ring"])
      [] (TypeSpec "Int") (Fixture.start [] None) = (s', Ok typenames') /\
    (typenames' = ["Int"] \/ typenames' = []) /\
    (Includes (Fixture.withFilters [Fixture.Anchored "Int"] [Fixture.Sub "ring"]) = [] ->
     (typenames' = ["Int"] <->
      forall r, In r [Fixture.Sub "ring"] -> Fixture.matchString r "Int" = false)) /\
    (Includes (Fixture.withFilters [Fixture.Anchored "Int"] [Fixture.Sub "ring"]) <> [] ->
     (typenames' = ["Int"] <->
      (forall r, In r [Fixture.Sub "ring"] -> Fixture.matchString r "Int" = false) /\
      exists r, In r [Fixture.Anchored "Int"] /\ Fixture.matchString r "Int" = true)).
Proof.
  apply (@filter_decision Fixture.host
           (Fixture.withFilters [Fixture.Anchored "Int"] [Fixture.Sub "ring"])
           Fixture.Stderr "Int" [] (Fixture.start [] None)).
  reflexivity.
Defined.

(** ** Emission *)

Section EmissionTheorems.
Context {host : Host}.

(** C3, as the code has it.  Once the names are collected and the sink
    is resolved, [HandlePackage] hands every text to the sink in turn
    ([writeAll] keeps only the world a write leaves behind and drops
    what it returned), closes the sink unless [NoClose] is set, and
    returns nil: a failed write neither reaches the caller nor stops
    the remaining steps. *)
Theorem emission_discards_write_results
        (g : Generator) (p : Package) (gofile0 : string) (rest : list string)
        (packagename : string) (typenames : list string) (w : WriteCloser)
        (s s1 s2 : world) :
  GoFiles p = gofile0 :: rest ->
  collect g p s = (s1, Ok (packagename, typenames)) ->
  resolveSink g gofile0 packagename s1 = (s2, Ok (inr w)) ->
  HandlePackage g p s =
  (finish g w (writeAll (asWriter w) (chunks g packagename typenames) s2),
   Ok None).
Proof.
  intros Hfiles Hc Hr. unfold HandlePackage. rewrite Hfiles.
  erewrite bind_Ok by exact Hc. simpl fst. simpl snd.
  erewrite bind_Ok by exact Hr.
  unfold bind. now rewrite emit_writes.
Qed.

(** C6.  [HandlePackage] succeeds on every well-formed package with a
    source file when a diagnostic stream and an [Output] are configured.
    Whenever it succeeds, the sink has received, in this order: the
    optional header, package clause and preamble, then one stub per
    accepted name, the accepted names being the declared type names in
    file-list order and declaration order within a file, filtered by the
    Pattern Matcher; then the sink is closed unless [NoClose] is set. *)
Theorem stubs_follow_traversal_order (g : Generator) (p : Package)
        (s : world) :
  (forall d w gofile0 rest,
      DiagnosticOutput g = Some d ->
      Output g = Some w ->
      GoFiles p = gofile0 :: rest ->
      wellFormed p = true ->
      exists s', HandlePackage g p s = (s', Ok None)) /\
  forall s',
  HandlePackage g p s = (s', Ok None) ->
  exists gofile0 rest s1 s2 w,
    GoFiles p = gofile0 :: rest /\
    collect g p s =
      (s1, Ok (lastPackageName p,
               filter (fun tn => included tn (Includes g) (Ignores g))
                 (flat_map (fun a => flat_map declNames (Decls a)) (Syntax p)))) /\
    resolveSink g gofile0 (lastPackageName p) s1 = (s2, Ok (inr w)) /\
    s' = finish g w
           (writeAll (asWriter w)
              (prelude g (lastPackageName p) ++
               map (fun tn => Sprintf (Format g) [tn; tn])
                 (filter (fun tn => included tn (Includes g) (Ignores g))
                    (flat_map (fun a => flat_map declNames (Decls a))
                       (Syntax p))))%list
              s2).
Proof.
  split.
  - intros d w gofile0 rest Hd Hout Hfiles Hwf.
    destruct (collect_total g p s Hd Hwf) as [s1 Hc].
    eexists. unfold HandlePackage. rewrite Hfiles.
    erewrite bind_Ok by exact Hc. simpl fst. simpl snd.
    unfold resolveSink. rewrite Hout.
    erewrite bind_Ok by reflexivity.
    unfold bind. rewrite emit_writes. reflexivity.
  - intros s'. apply HandlePackage_inv_None.
Qed.

(** C9.  For a package whose syntax is [files ++ [a]], the package name
    collected is the one declared by [a], the last file visited, and a
    successful [HandlePackage] writes its texts with that name in the
    package clause.  And [HandlePackage] does get there: on a well-formed
    package with a source file and a diagnostic stream, the filter returns
    [Name a], and then, with an [Output] configured, or with a sink creator
    that is handed [Name a] and returns a sink, [HandlePackage] returns nil
    having written the package clause for [Name a]. *)
Theorem package_name_is_last_file (g : Generator) (p : Package)
        (files : list File) (a : File) :
  Syntax p = (files ++ [a])%list ->
  (forall s s' packagename typenames,
      collect g p s = (s', Ok (packagename, typenames)) ->
      packagename = Name a) /\
  (forall s s',
      HandlePackage g p s = (s', Ok None) ->
      exists s2 w typenames,
        s' = finish g w
               (writeAll (asWriter w)
                  (((if (0 <? String.length (Header g))%nat
                     then [Header g] else []) ++
                    (if NoPackage g then []
                     else [Sprintf ("package %s" ++ nl ++ nl)%string [Name a]]) ++
                    (if (0 <? String.length (Preamble g))%nat
                     then [(Preamble g ++ nl ++ nl)%string] else [])) ++
                   stubs g typenames)%list
                  s2)) /\
  (forall d gofile0 rest s,
      DiagnosticOutput g = Some d ->
      GoFiles p = gofile0 :: rest ->
      wellFormed p = true ->
      exists s1,
        collect g p s = (s1, Ok (Name a, acceptedNames g p)) /\
        (forall w,
            Output g = Some w ->
            HandlePackage g p s =
            (finish g w
               (writeAll (asWriter w)
                  (((if (0 <? String.length (Header g))%nat
                     then [Header g] else []) ++
                    (if NoPackage g then []
                     else [Sprintf ("package %s" ++ nl ++ nl)%string [Name a]]) ++
                    (if (0 <? String.length (Preamble g))%nat
                     then [(Preamble g ++ nl ++ nl)%string] else [])) ++
                   stubs g (acceptedNames g p))%list
                  s1),
             Ok None)) /\
        (forall create s2 w,
            Output g = None ->
            WriteCloserCreator g = Some create ->
            create (filepath_Dir gofile0) (Name a) s1 = (s2, Ok (Some w, None)) ->
            HandlePackage g p s =
            (finish g w
               (writeAll (asWriter w)
                  (((if (0 <? String.length (Header g))%nat
                     then [Header g] else []) ++
                    (if NoPackage g then []
                     else [Sprintf ("package %s" ++ nl ++ nl)%string [Name a]]) ++
                    (if (0 <? String.length (Preamble g))%nat
                     then [(Preamble g ++ nl ++ nl)%string] else [])) ++
                   stubs g (acceptedNames g p))%list
                  s2),
             Ok None))).
Proof.
  intros Hsyn.
  assert (Hlast : lastPackageName p = Name a).
  { unfold lastPackageName. rewrite Hsyn, map_app. simpl. apply last_last. }
  split; [| split].
  - intros s s' pn tns H. apply collect_inv_Ok in H. injection H as -> _.
    exact Hlast.
  - intros s s' H.
    apply HandlePackage_inv_None in H
      as (gofile0 & rest & s1 & s2 & w & _ & _ & _ & ->).
    exists s2, w, (acceptedNames g p). now rewrite Hlast.
  - intros d gofile0 rest s Hd Hfiles Hwf.
    destruct (collect_total g p s Hd Hwf) as [s1 Hc].
    rewrite Hlast in Hc. exists s1. split; [exact Hc |]. split.
    + intros w Hout. unfold HandlePackage. rewrite Hfiles.
      erewrite bind_Ok by exact Hc. simpl fst. simpl snd.
      unfold resolveSink. rewrite Hout.
      erewrite bind_Ok by reflexivity.
      unfold bind. now rewrite emit_writes.
    + intros create s2 w Hout Hcreate Hsink. unfold HandlePackage.
      rewrite Hfiles.
      erewrite bind_Ok by exact Hc. simpl fst. simpl snd.
      assert (Hr : resolveSink g gofile0 (Name a) s1 = (s2, Ok (inr w))).
      { unfold resolveSink. rewrite Hout, Hcreate.
        now erewrite bind_Ok by exact Hsink. }
      erewrite bind_Ok by exact Hr.
      unfold bind. now rewrite emit_writes.
Qed.
End EmissionTheorems.

(** A sink that refuses every write still receives every text and a
    [Close], and [HandlePackage] returns nil. *)
Lemma emission_discards_write_results_witness :
  HandlePackage (host := Fixture.host)
    (Fixture.withCreator None (Some Fixture.FailingSink) ["p"])
    Fixture.pkgOne (Fixture.start [] None) =
  (Fixture.mkState "" []
     ["including: Int" ++ nl; "including: String" ++ nl; "including: Struct" ++ nl]
     ["// the header" ++ nl; "package one" ++ nl ++ nl; "import fmt" ++ nl ++ nl;
      "Int,Int" ++ nl; "String,String" ++ nl; "Struct,Struct" ++ nl]
     1 ([], None),
   Ok None).
Proof.
  pose (s1 := Fixture.mkState "" []
                ["including: Int" ++ nl; "including: String" ++ nl;
                 "including: Struct" ++ nl] [] 0 ([], None)).
  apply (@emission_discards_write_results Fixture.host
           (Fixture.withCreator None (Some Fixture.FailingSink) ["p"])
           Fixture.pkgOne "testdata/one/one.go" [] "one"
           ["Int"; "String"; "Struct"] Fixture.FailingSink
           (Fixture.start [] None) s1 s1).
  - reflexivity.
  - reflexivity.
  - reflexivity.
Defined.

(** C3 as it is worded fails here: the very first write (the header) is
    refused with an error, yet [HandlePackage] returns nil instead of that
    error, and the package clause, the preamble, the three stubs and the
    close are all still attempted. *)
Lemma write_failure_neither_propagates_nor_stops :
  let g := Fixture.withCreator None (Some Fixture.FailingSink) ["p"] in
  let run := HandlePackage (host := Fixture.host) g Fixture.pkgOne
               (Fixture.start [] None) in
  snd (Fixture.write Fixture.FailingW (Header g) (Fixture.start [] None))
    = Some (otherError "write refused") /\
  snd run = Ok None /\
  Fixture.attempts (fst run) =
    ["// the header" ++ nl; "package one" ++ nl ++ nl; "import fmt" ++ nl ++ nl;
     "Int,Int" ++ nl; "String,String" ++ nl; "Struct,Struct" ++ nl] /\
  Fixture.closes (fst run) = 1.
Proof. repeat split. Qed.

(** C6 at the "accept all" case of the tests. *)
Lemma stubs_follow_traversal_order_witness :
  exists gofile0 rest s1 s2 w,
    GoFiles Fixture.pkgOne = gofile0 :: rest /\
    collect (host := Fixture.host) Fixture.base Fixture.pkgOne
      (Fixture.start [] None) = (s1, Ok ("one", ["Int"; "String"; "Struct"])) /\
    resolveSink (host := Fixture.host) Fixture.base gofile0 "one" s1
      = (s2, Ok (inr w)) /\
    Fixture.mkState "" 
      [("// the header" ++ nl) ++ ("package one" ++ nl ++ nl) ++
       ("import fmt" ++ nl ++ nl) ++
       ("Int,Int" ++ nl) ++ ("String,String" ++ nl) ++ ("Struct,Struct" ++ nl)]
      ["including: Int" ++ nl; "including: String" ++ nl; "including: Struct" ++ nl]
      [] 0 ([], None) =
    finish (host := Fixture.host) Fixture.base w
      (writeAll (host := Fixture.host) (Fixture.sinkWriter w)
         ["// the header" ++ nl; "package one" ++ nl ++ nl; "import fmt" ++ nl ++ nl;
          "Int,Int" ++ nl; "String,String" ++ nl; "Struct,Struct" ++ nl] s2).
Proof.
  apply (proj2 (@stubs_follow_traversal_order Fixture.host Fixture.base
                  Fixture.pkgOne (Fixture.start [] None))).
  reflexivity.
Defined.

(** C9 on two files that disagree: the filter returns the second file's
    name and the artifact starts with its package clause. *)
Lemma package_name_is_last_file_witness :
  collect (host := Fixture.host) Fixture.base Fixture.pkgDisagree
    (Fixture.start [] None) =
  (Fixture.mkState "" [] ["including: A" ++ nl; "including: B" ++ nl]
     [] 0 ([], None),
   Ok ("beta", ["A"; "B"])) /\
  "beta" = Name (mkFile "beta" [GenDecl TYPE [TypeSpec "B"]]) /\
  HandlePackage (host := Fixture.host)
    (Fixture.withCreator None (Some Fixture.MultiBuffer) ["p"])
    Fixture.pkgDisagree (Fixture.start [] None) =
  (Fixture.mkState ""
     [("// the header" ++ nl) ++ ("package beta" ++ nl ++ nl) ++
      ("import fmt" ++ nl ++ nl) ++ ("A,A" ++ nl) ++ ("B,B" ++ nl)]
     ["including: A" ++ nl; "including: B" ++ nl] [] 0 ([], None),
   Ok None).
Proof.
  split; [reflexivity |]. split.
  - apply (proj1 (@package_name_is_last_file Fixture.host Fixture.base
                    Fixture.pkgDisagree
                    [mkFile "alpha" [GenDecl TYPE [TypeSpec "A"]]]
                    (mkFile "beta" [GenDecl TYPE [TypeSpec "B"]]) eq_refl)
             (Fixture.start [] None)
             (Fixture.mkState "" [] ["including: A" ++ nl; "including: B" ++ nl]
                [] 0 ([], None))
             "beta" ["A"; "B"]).
    reflexivity.
  - destruct (proj2 (proj2 (@package_name_is_last_file Fixture.host
                              (Fixture.withCreator None
                                 (Some Fixture.MultiBuffer) ["p"])
                              Fixture.pkgDisagree
                              [mkFile "alpha" [GenDecl TYPE [TypeSpec "A"]]]
                              (mkFile "beta" [GenDecl TYPE [TypeSpec "B"]])
                              eq_refl))
                Fixture.Stderr "a.go" ["b.go"] (Fixture.start [] None)
                eq_refl eq_refl eq_refl) as (s1 & Hc & Hout & _).
    rewrite (Hout Fixture.MultiBuffer eq_refl).
    cbv in Hc. injection Hc as <-. reflexivity.
Defined.

(** ** One iteration of the package loop *)

Section LoopFacts.
Context {host : Host}.

Lemma index_Some l i x s :
  nth_error l i = Some x -> index l i s = (s, Ok x).
Proof. intros H. unfold index. now rewrite H. Qed.

Lemma index_None l i s :
  List.length l <= i ->
  index l i s = (s, Panic (IndexOutOfRange i (List.length l))).
Proof.
  intros H. unfold index.
  now rewrite (proj2 (nth_error_None l i) H).
Qed.

Lemma errors_Join_Some acc e : errors_Join [acc; Some e] <> None.
Proof. unfold errors_Join. destruct acc; discriminate. Qed.

Lemma joinEach_None reterr errs :
  joinEach reterr errs = None -> reterr = None /\ errs = [].
Proof.
  revert reterr. induction errs as [| e errs IH]; intros reterr H.
  - now split.
  - simpl in H. apply IH in H as [H _]. now apply errors_Join_Some in H.
Qed.

Lemma joinLoop g d errs : forall reterr s,
  DiagnosticOutput g = Some d ->
  foldM (fun acc err => diag g [Error err] ;;; ret (errors_Join [acc; Some err]))
        errs reterr s =
  (printEach d errs s, Ok (joinEach reterr errs)).
Proof.
  induction errs as [| e errs IH]; intros reterr s Hd; simpl.
  - reflexivity.
  - erewrite bind_Ok; [apply IH; exact Hd |].
    erewrite bind_Ok by (apply diag_Some; exact Hd). reflexivity.
Qed.

Lemma length_zero_ltb A (l : list A) :
  (0 <? List.length l)%nat = false <-> l = [].
Proof.
  destruct l as [| x l]; split; intros H; try reflexivity; discriminate.
Qed.

(** A package with load diagnostics. *)
Lemma handleLoaded_diagnostics g d i pat reterr p s :
  DiagnosticOutput g = Some d ->
  nth_error (Patterns g) i = Some pat ->
  Errors p <> [] ->
  handleLoaded g i reterr p s =
  (printEach d (Errors p)
     (fst (Write d (Sprintln ["found package errors, not continuing"])
             (fst (Write d (Sprintln ["package with pattern"; pat]) s)))),
   Ok (joinEach reterr (Errors p))).
Proof.
  intros Hd Hpat Herr. unfold handleLoaded.
  erewrite bind_Ok by (apply index_Some; exact Hpat).
  erewrite bind_Ok by (apply diag_Some; exact Hd).
  unfold afterPatternLine.
  destruct (0 <? List.length (Errors p))%nat eqn:E.
  - erewrite bind_Ok by (apply diag_Some; exact Hd).
    now apply joinLoop.
  - apply length_zero_ltb in E. contradiction.
Qed.

(** A package without load diagnostics whose processing returns. *)
Lemma handleLoaded_handled g d i pat reterr p s s2 err :
  DiagnosticOutput g = Some d ->
  nth_error (Patterns g) i = Some pat ->
  Errors p = [] ->
  HandlePackage g p (fst (Write d (Sprintln ["package with pattern"; pat]) s))
    = (s2, Ok err) ->
  handleLoaded g i reterr p s =
  match err with
  | Some e =>
      (fst (Write d (Sprintln ["generate error:"; Error e]) s2),
       Ok (errors_Join [reterr; Some e]))
  | None => (s2, Ok reterr)
  end.
Proof.
  intros Hd Hpat Herr H. unfold handleLoaded.
  erewrite bind_Ok by (apply index_Some; exact Hpat).
  erewrite bind_Ok by (apply diag_Some; exact Hd).
  unfold afterPatternLine. rewrite Herr. simpl.
  erewrite bind_Ok by exact H.
  destruct err as [e |]; [| reflexivity].
  erewrite bind_Ok by (apply diag_Some; exact Hd). reflexivity.
Qed.

(** A package whose processing panics. *)
Lemma handleLoaded_panics g d i pat reterr p s s2 v :
  DiagnosticOutput g = Some d ->
  nth_error (Patterns g) i = Some pat ->
  Errors p = [] ->
  HandlePackage g p (fst (Write d (Sprintln ["package with pattern"; pat]) s))
    = (s2, Panic v) ->
  handleLoaded g i reterr p s = (s2, Panic v).
Proof.
  intros Hd Hpat Herr H. unfold handleLoaded.
  erewrite bind_Ok by (apply index_Some; exact Hpat).
  erewrite bind_Ok by (apply diag_Some; exact Hd).
  unfold afterPatternLine. rewrite Herr. simpl. now apply bind_Panic.
Qed.

(** Whatever an iteration returns is [reterr], or [reterr] joined with
    the package's diagnostics or with the error of [HandlePackage]. *)
Lemma handleLoaded_inv_Ok g i reterr p s s' r :
  handleLoaded g i reterr p s = (s', Ok r) ->
  exists pat,
    nth_error (Patterns g) i = Some pat /\
    ((Errors p <> [] /\ r = joinEach reterr (Errors p)) \/
     (Errors p = [] /\
      exists s1 s2 err,
        HandlePackage g p s1 = (s2, Ok err) /\
        r = match err with
            | Some e => errors_Join [reterr; Some e]
            | None => reterr
            end)).
Proof.
  unfold handleLoaded. intros H.
  apply bind_inv_Ok in H as (s0 & pat0 & Hidx & H).
  unfold index in Hidx.
  destruct (nth_error (Patterns g) i) as [pat |] eqn:Hpat; [| discriminate].
  injection Hidx as <- <-. exists pat. split; [reflexivity |].
  apply bind_inv_Ok in H as (s1 & u & Hdiag & H).
  apply diag_inv_Ok in Hdiag as (d & Hd & ->).
  unfold afterPatternLine in H.
  destruct (0 <? List.length (Errors p))%nat eqn:E.
  - left. assert (Herr : Errors p <> []).
    { intros C. rewrite C in E. discriminate. }
    split; [exact Herr |].
    apply bind_inv_Ok in H as (s2 & u' & _ & H).
    rewrite (joinLoop g (Errors p) reterr s2 Hd) in H. now injection H as _ <-.
  - right. apply length_zero_ltb in E. split; [exact E |].
    apply bind_inv_Ok in H as (s2 & err & HH & H).
    exists (fst (Write d (Sprintln ["package with pattern"; pat]) s)), s2, err.
    split; [exact HH |].
    destruct err as [e |].
    + apply bind_inv_Ok in H as (s3 & u' & _ & [= _ <-]). reflexivity.
    + now injection H as _ <-.
Qed.

Lemma packageLoop_inv_Ok g ps : forall i reterr s s' r,
  packageLoop g i ps reterr s = (s', Ok r) ->
  (ps = [] \/ i + List.length ps <= List.length (Patterns g)) /\
  (r = None -> reterr = None /\ forall q, In q ps -> Errors q = []) /\
  (r = reterr \/
   exists q, In q ps /\
     (Errors q <> [] \/
      exists s1 s2 e, HandlePackage g q s1 = (s2, Ok (Some e)))).
Proof.
  induction ps as [| p ps IH]; intros i reterr s s' r H; simpl in H.
  - injection H as _ <-. split; [now left |]. split; [| now left].
    intros Hr. split; [exact Hr |]. intros q [].
  - apply bind_inv_Ok in H as (s1 & reterr1 & Hstep & Hrest).
    apply IH in Hrest as (Hlen & Hnil & Hres).
    apply handleLoaded_inv_Ok in Hstep as (pat & Hpat & Hcase).
    assert (Hi : i < List.length (Patterns g))
      by (apply nth_error_Some; congruence).
    split; [right; destruct Hlen as [-> | Hlen]; simpl; lia |]. split.
    + intros ->. destruct (Hnil eq_refl) as [-> Hall].
      destruct Hcase as [[Herr Hj] | (Herr & sa & sb & err & _ & Hj)].
      * symmetry in Hj. apply joinEach_None in Hj as [_ Hj]. contradiction.
      * destruct err as [e |].
        -- symmetry in Hj. now apply errors_Join_Some in Hj.
        -- split; [now symmetry |]. intros q [<- | Hq]; auto.
    + destruct Hres as [-> | (q & Hq & Hwhy)].
      * destruct Hcase as [[Herr Hj] | (Herr & sa & sb & err & HH & Hj)].
        -- right. exists p. split; [now left | now left].
        -- destruct err as [e |].
           ++ right. exists p. split; [now left |]. right. now exists sa, sb, e.
           ++ now left.
      * right. exists q. split; [now right | exact Hwhy].
Qed.

Lemma withDefaults_Patterns g : Patterns (withDefaults g) = Patterns g.
Proof. unfold withDefaults. now destruct (WriteCloserCreator g). Qed.

Lemma withDefaults_DiagnosticOutput g :
  DiagnosticOutput (withDefaults g) = Some (diagnosticWriter g).
Proof.
  unfold withDefaults, diagnosticWriter.
  now destruct (WriteCloserCreator g), (DiagnosticOutput g).
Qed.

Lemma Generate_loaded g0 s s' p ps :
  packages_Load (Patterns g0) s = (s', (p :: ps, None)) ->
  Generate g0 s = packageLoop (withDefaults g0) 0 (p :: ps) None s'.
Proof.
  intros H. unfold Generate. now rewrite withDefaults_Patterns, H.
Qed.
End LoopFacts.

(** ** The run *)

Section RunTheorems.
Context {host : Host}.


(** C5.  When [packages.Load] returns an error, [Generate] returns that
    error and leaves the world as the loader left it.  When it resolves
    no package, [Generate] writes one line to the diagnostic stream and
    returns the error [no packages loaded].  Neither case enters the
    package loop. *)
Theorem load_failure_is_fatal (g0 : Generator) (s s' : world) :
  (forall ps err,
      packages_Load (Patterns g0) s = (s', (ps, Some err)) ->
      Generate g0 s = (s', Ok (Some err))) /\
  (packages_Load (Patterns g0) s = (s', ([], None)) ->
   Generate g0 s =
   (fst (Write (diagnosticWriter g0) (Sprintln ["no packages loaded"]) s'),
    Ok (Some (errors_New "no packages loaded")))).
Proof.
  split.
  - intros ps err H. unfold Generate.
    rewrite withDefaults_Patterns, H. now destruct ps.
  - intros H. unfold Generate. rewrite withDefaults_Patterns, H.
    erewrite bind_Ok
      by (apply diag_Some; apply withDefaults_DiagnosticOutput).
    reflexivity.
Qed.

(** C7.  When no [Output] is configured and the sink creator returns
    neither a sink nor an error, [HandlePackage] panics with the error
    [nil WriteCloser]; inside [Generate]'s loop the panic ends the run
    at once: nothing is joined into [reterr] and the remaining packages
    are not processed. *)
Theorem nil_sink_without_error_panics
        (g : Generator) (p : Package) (create : WriteCloserCreatorT)
        (gofile0 : string) (files : list string)
        (packagename : string) (typenames : list string)
        (s s1 s2 : world) :
  GoFiles p = gofile0 :: files ->
  Output g = None ->
  WriteCloserCreator g = Some create ->
  collect g p s = (s1, Ok (packagename, typenames)) ->
  create (filepath_Dir gofile0) packagename s1 = (s2, Ok (None, None)) ->
  HandlePackage g p s =
    (s2, Panic (PanicError (errors_New "nil WriteCloser"))) /\
  (forall d i pat rest reterr s0,
      DiagnosticOutput g = Some d ->
      nth_error (Patterns g) i = Some pat ->
      Errors p = [] ->
      s = fst (Write d (Sprintln ["package with pattern"; pat]) s0) ->
      packageLoop g i (p :: rest) reterr s0 =
        (s2, Panic (PanicError (errors_New "nil WriteCloser")))).
Proof.
  intros Hfiles Hout Hcreate Hc Hnil.
  assert (HP : HandlePackage g p s =
               (s2, Panic (PanicError (errors_New "nil WriteCloser")))).
  { unfold HandlePackage. rewrite Hfiles.
    erewrite bind_Ok by exact Hc. simpl fst.
    apply bind_Panic. unfold resolveSink. rewrite Hout, Hcreate.
    erewrite bind_Ok by exact Hnil. reflexivity. }
  split; [exact HP |].
  intros d i pat rest reterr s0 Hd Hpat Herr ->.
  simpl packageLoop. apply bind_Panic.
  now apply handleLoaded_panics with (d := d) (pat := pat).
Qed.

(** C8, as the code has it.  For a package without source files
    [HandlePackage] returns the error [no Go files in package] and leaves
    the world untouched: no sink is created and nothing is written.  In
    the loop, when the package has no load diagnostics, that error is
    joined into [reterr], only the two diagnostic lines are written, and
    the loop goes on with the remaining packages.  When the package has
    load diagnostics, [HandlePackage] is not reached: the diagnostics are
    joined instead, only diagnostic lines are written, and the loop goes
    on all the same. *)
Theorem package_without_source_files (g : Generator) (p : Package) :
  GoFiles p = [] ->
  (forall s,
      HandlePackage g p s =
      (s, Ok (Some (errors_New "no Go files in package")))) /\
  (forall d i pat rest reterr s,
      DiagnosticOutput g = Some d ->
      nth_error (Patterns g) i = Some pat ->
      Errors p = [] ->
      packageLoop g i (p :: rest) reterr s =
      packageLoop g (S i) rest
        (errors_Join [reterr; Some (errors_New "no Go files in package")])
        (fst (Write d (Sprintln ["generate error:"; "no Go files in package"])
                (fst (Write d (Sprintln ["package with pattern"; pat]) s))))) /\
  (forall d i pat rest reterr s,
      DiagnosticOutput g = Some d ->
      nth_error (Patterns g) i = Some pat ->
      Errors p <> [] ->
      packageLoop g i (p :: rest) reterr s =
      packageLoop g (S i) rest (joinEach reterr (Errors p))
        (printEach d (Errors p)
           (fst (Write d (Sprintln ["found package errors, not continuing"])
                   (fst (Write d (Sprintln ["package with pattern"; pat]) s)))))).
Proof.
  intros Hfiles.
  assert (HP : forall s, HandlePackage g p s =
                         (s, Ok (Some (errors_New "no Go files in package")))).
  { intros s. unfold HandlePackage. now rewrite Hfiles. }
  split; [exact HP |]. split.
  - intros d i pat rest reterr s Hd Hpat Herr. simpl packageLoop.
    erewrite bind_Ok
      by (apply (handleLoaded_handled g i reterr p s Hd Hpat Herr (HP _))).
    reflexivity.
  - intros d i pat rest reterr s Hd Hpat Herr. simpl packageLoop.
    erewrite bind_Ok by (apply handleLoaded_diagnostics; eassumption).
    reflexivity.
Qed.

(** The pattern lookup.  The iteration for the [i]-th loaded package
    starts by printing [Patterns[i]].  The lookup panics when [i] is not
    below the number of patterns and an iteration that returns had [i]
    below it; so a package
    loop that returns has processed at most as many packages as there are
    patterns left, a run of [Generate] that returns had at most as many
    loaded packages as configured patterns, and with that many patterns
    every lookup of the loop is in range. *)
Theorem pattern_lookup_needs_enough_patterns (g : Generator) :
  (forall i pat reterr p s,
      nth_error (Patterns g) i = Some pat ->
      handleLoaded g i reterr p s =
      (diag g ["package with pattern"; pat] ;;; afterPatternLine g reterr p) s) /\
  (forall i reterr p s,
      List.length (Patterns g) <= i ->
      handleLoaded g i reterr p s =
      (s, Panic (IndexOutOfRange i (List.length (Patterns g))))) /\
  (forall i reterr p s s' r,
      handleLoaded g i reterr p s = (s', Ok r) ->
      i < List.length (Patterns g)) /\
  (forall i p ps reterr s s' r,
      packageLoop g i (p :: ps) reterr s = (s', Ok r) ->
      i + List.length (p :: ps) <= List.length (Patterns g)) /\
  (forall s s1 ps s' r,
      packages_Load (Patterns g) s = (s1, (ps, None)) ->
      Generate g s = (s', Ok r) ->
      List.length ps <= List.length (Patterns g)) /\
  (forall i (ps : list Package) k p,
      i + List.length ps <= List.length (Patterns g) ->
      nth_error ps k = Some p ->
      exists pat,
        nth_error (Patterns g) (i + k) = Some pat /\
        forall s, index (Patterns g) (i + k) s = (s, Ok pat)).
Proof.
  split; [| split; [| split; [| split; [| split]]]].
  - intros i pat reterr p s Hpat. unfold handleLoaded.
    now erewrite bind_Ok by (apply index_Some; exact Hpat).
  - intros i reterr p s Hi. unfold handleLoaded.
    apply bind_Panic. now apply index_None.
  - intros i reterr p s s' r H.
    apply handleLoaded_inv_Ok in H as (pat & Hpat & _).
    apply nth_error_Some. congruence.
  - intros i p ps reterr s s' r H.
    apply packageLoop_inv_Ok in H as ([C | Hlen] & _); [discriminate | exact Hlen].
  - intros s s1 ps s' r Hload H.
    destruct ps as [| p ps]; [simpl; lia |].
    rewrite (Generate_loaded g s Hload) in H.
    apply packageLoop_inv_Ok in H as ([C | Hlen] & _); [discriminate |].
    now rewrite withDefaults_Patterns in Hlen.
  - intros i ps k p Hlen Hk.
    assert (Hk' : k < List.length ps) by (apply nth_error_Some; congruence).
    destruct (nth_error (Patterns g) (i + k)) as [pat |] eqn:E.
    + exists pat. split; [reflexivity |]. intros s. now apply index_Some.
    + apply nth_error_None in E. lia.
Qed.
End RunTheorems.

(** ** The run on concrete packages *)



(** The same run to its end: both failures are in the returned error and
    the healthy package still got its artifact. *)
Example Generate_isolates_failures :
  let g := Fixture.withCreator
             (Some (Fixture.creator (Some Fixture.MultiBuffer) None)) None
             ["p"; "q"; "r"] in
  let run := Generate (host := Fixture.host) g
               (Fixture.start
                  [Fixture.pkgBroken; Fixture.pkgNoFiles; Fixture.pkgTwo] None) in
  snd run =
    Ok (Some (joinError
                [joinError [otherError "bad.go:1:1: expected declaration"];
                 errorString "no Go files in package"])) /\
  Fixture.history (fst run) =
    [("// the header" ++ nl) ++ ("package two" ++ nl ++ nl) ++
     ("import fmt" ++ nl ++ nl) ++ ("FIRST,FIRST" ++ nl) ++ ("SECOND,SECOND" ++ nl)].
Proof. split; reflexivity. Qed.

(** C5 on a loader error and on an empty resolution. *)
Lemma load_failure_is_fatal_witness :
  Generate (host := Fixture.host) Fixture.base
    (Fixture.start [Fixture.pkgOne] (Some (otherError "malformed pattern"))) =
  (Fixture.start [Fixture.pkgOne] (Some (otherError "malformed pattern")),
   Ok (Some (otherError "malformed pattern"))) /\
  Generate (host := Fixture.host) Fixture.base (Fixture.start [] None) =
  (Fixture.mkState "" [] ["no packages loaded" ++ nl] [] 0 ([], None),
   Ok (Some (errorString "no packages loaded"))).
Proof.
  split.
  - apply (proj1 (@load_failure_is_fatal Fixture.host Fixture.base
                    (Fixture.start [Fixture.pkgOne]
                       (Some (otherError "malformed pattern")))
                    (Fixture.start [Fixture.pkgOne]
                       (Some (otherError "malformed pattern"))))
             [Fixture.pkgOne] (otherError "malformed pattern")).
    reflexivity.
  - apply (proj2 (@load_failure_is_fatal Fixture.host Fixture.base
                    (Fixture.start [] None) (Fixture.start [] None))).
    reflexivity.
Defined.

(** C7 with a creator that returns [(nil, nil)]: the run stops at the first
    package, the second one is never looked at. *)
Lemma nil_sink_without_error_panics_witness :
  let g := Fixture.withCreator (Some (Fixture.creator None None)) None
             ["p"; "q"] in
  let s1 := Fixture.mkState "" []
              ["package with pattern p" ++ nl; "including: Int" ++ nl;
               "including: String" ++ nl; "including: Struct" ++ nl]
              [] 0 ([], None) in
  packageLoop (host := Fixture.host) g 0 [Fixture.pkgOne; Fixture.pkgTwo] None
    (Fixture.start [] None) =
  (s1, Panic (PanicError (errorString "nil WriteCloser"))).
Proof.
  intros g s1.
  apply (proj2 (@nil_sink_without_error_panics Fixture.host g Fixture.pkgOne
                  (Fixture.creator None None) "testdata/one/one.go" []
                  "one" ["Int"; "String"; "Struct"]
                  (Fixture.mkState "" [] ["package with pattern p" ++ nl]
                     [] 0 ([], None))
                  s1 s1 eq_refl eq_refl eq_refl eq_refl eq_refl)
           Fixture.Stderr 0 "p" [Fixture.pkgTwo] None (Fixture.start [] None)
           eq_refl eq_refl eq_refl eq_refl).
Defined.

(** C8 on a package without source files followed by a healthy one. *)
Lemma package_without_source_files_witness :
  let g := Fixture.withCreator
             (Some (Fixture.creator (Some Fixture.MultiBuffer) None)) None
             ["p"; "q"] in
  HandlePackage (host := Fixture.host) g Fixture.pkgNoFiles (Fixture.start [] None) =
  (Fixture.start [] None, Ok (Some (errorString "no Go files in package"))) /\
  packageLoop (host := Fixture.host) g 0 [Fixture.pkgNoFiles; Fixture.pkgTwo] None
    (Fixture.start [] None) =
  packageLoop (host := Fixture.host) g 1 [Fixture.pkgTwo]
    (Some (joinError [errorString "no Go files in package"]))
    (Fixture.mkState "" []
       ["package with pattern p" ++ nl;
        "generate error: no Go files in package" ++ nl] [] 0 ([], None)).
Proof.
  intros g. split.
  - apply (proj1 (@package_without_source_files Fixture.host g
                    Fixture.pkgNoFiles eq_refl)).
  - apply (proj1 (proj2 (@package_without_source_files Fixture.host g
                           Fixture.pkgNoFiles eq_refl))
             Fixture.Stderr 0 "p" [Fixture.pkgTwo] None (Fixture.start [] None)
             eq_refl eq_refl eq_refl).
Defined.

(** C8 as it is worded fails here: a loaded package without source files
    that carries a load diagnostic never reaches [HandlePackage]; the run
    returns the diagnostic alone, the error [no Go files in package] is
    not in it and no [generate error:] line is printed. *)
Lemma zero_files_with_diagnostics_skips_HandlePackage :
  let g := Fixture.withCreator
             (Some (Fixture.creator (Some Fixture.MultiBuffer) None)) None
             ["p"] in
  let p := mkPackage [] [] [otherError "-: no Go files in /tmp/empty"] in
  let run := Generate (host := Fixture.host) g (Fixture.start [p] None) in
  GoFiles p = [] /\
  snd run = Ok (Some (joinError [otherError "-: no Go files in /tmp/empty"])) /\
  Fixture.diagnostics (fst run) =
    ["package with pattern p" ++ nl;
     "found package errors, not continuing" ++ nl;
     "-: no Go files in /tmp/empty" ++ nl].
Proof. repeat split. Qed.

(** With one pattern the lookup for a second package is out of range,
    the lookup for the first one is not. *)
Lemma pattern_lookup_needs_enough_patterns_witness :
  let g := Fixture.withCreator
             (Some (Fixture.creator (Some Fixture.MultiBuffer) None)) None
             ["./..."] in
  handleLoaded (host := Fixture.host) g 1 None Fixture.pkgTwo (Fixture.start [] None) =
  (Fixture.start [] None, Panic (IndexOutOfRange 1 1)) /\
  exists pat,
    nth_error (Patterns g) (0 + 0) = Some pat /\
    forall s, index (host := Fixture.host) (Patterns g) (0 + 0) s = (s, Ok pat).
Proof.
  intros g. split.
  - apply (proj1 (proj2 (@pattern_lookup_needs_enough_patterns Fixture.host g))).
    simpl. lia.
  - apply (proj2 (proj2 (proj2 (proj2 (proj2
             (@pattern_lookup_needs_enough_patterns Fixture.host g)))))
             0 [Fixture.pkgOne] 0 Fixture.pkgOne).
    + simpl. lia.
    + reflexivity.
Defined.

(** C10.  The index is not within bounds for every package the loader
    returns: with one pattern that the loader expands into two packages,
    the first package gets its artifact and then the run panics on
    [Patterns[1]], index 1 out of range for length 1. *)
Example Generate_more_packages_than_patterns :
  let g := Fixture.withCreator
             (Some (Fixture.creator (Some Fixture.MultiBuffer) None)) None
             ["./..."] in
  let run := Generate (host := Fixture.host) g
               (Fixture.start [Fixture.pkgOne; Fixture.pkgTwo] None) in
  snd run = Panic (IndexOutOfRange 1 1) /\
  List.length (Fixture.history (fst run)) = 1.
Proof. split; reflexivity. Qed.

(** * Further properties *)

(** ** The flag value *)

Lemma append_assoc (a b c : string) : (a ++ b) ++ c = a ++ b ++ c.
Proof. induction a as [| ch a IH]; simpl; [reflexivity | now rewrite IH]. Qed.

Lemma append_nil_r (a : string) : a ++ "" = a.
Proof. induction a as [| ch a IH]; simpl; [reflexivity | now rewrite IH]. Qed.

Lemma concat_snoc sep l n :
  String.concat sep (l ++ [n]) =
  match l with
  | [] => n
  | _ :: _ => String.concat sep l ++ sep ++ n
  end.
Proof.
  induction l as [| x l IH]; [reflexivity |].
  destruct l as [| y l].
  - reflexivity.
  - change (String.concat sep ((x :: y :: l) ++ [n]))
      with (x ++ sep ++ String.concat sep ((y :: l) ++ [n])).
    rewrite IH.
    change (String.concat sep (x :: y :: l))
      with (x ++ sep ++ String.concat sep (y :: l)).
    now rewrite !append_assoc.
Qed.

Lemma setEach_app s ns : setEach s ns = (s ++ ns)%list.
Proof.
  revert s. induction ns as [| n ns IH]; intros s.
  - simpl. now rewrite app_nil_r.
  - change (setEach (s ++ [n])%list ns = (s ++ n :: ns)%list).
    rewrite IH. now rewrite <- app_assoc.
Qed.

(** X1.  [Set] never fails and appends its operand, so a flag given
    several times accumulates the values in the order given, and [String]
    shows them separated by commas: after one more [Set] it is the operand
    alone if the value was empty, and the old text, a comma and the
    operand otherwise. *)
Theorem stringsvar_accumulates (s : stringsvar) (ns : list string) (n : string) :
  snd (stringsvar_Set s n) = None /\
  stringsvar_String (fst (stringsvar_Set s n)) =
    match s with
    | [] => n
    | _ :: _ => stringsvar_String s ++ "," ++ n
    end /\
  setEach s ns = (s ++ ns)%list /\
  stringsvar_String (setEach [] ns) = String.concat "," ns.
Proof.
  split; [reflexivity |]. split; [apply concat_snoc |].
  split; [apply setEach_app |]. now rewrite setEach_app.
Qed.

(** ** What the filter prints and keeps *)

Section NarrationFacts.
Context {host : Host}.

Lemma handleSpec_exact g d tns tn s :
  DiagnosticOutput g = Some d ->
  handleSpec g tns (TypeSpec tn) s =
  (fst (Write d (decisionLine g tn) s), Ok (tns ++ keep g tn)%list).
Proof.
  intros Hd. unfold handleSpec, decisionLine, keep.
  rewrite (rejects_included g tn). rewrite <- anyMatch_existsb.
  destruct (anyMatch (Ignores g) tn).
  - erewrite bind_Ok by (apply diag_Some; exact Hd).
    simpl. now rewrite app_nil_r.
  - destruct ((0 <? List.length (Includes g))%nat && negb (anyMatch (Includes g) tn));
      erewrite bind_Ok by (apply diag_Some; exact Hd); simpl.
    + now rewrite app_nil_r.
    + reflexivity.
Qed.

Lemma specs_exact g d specs :
  DiagnosticOutput g = Some d ->
  forallb (fun sp => match sp with TypeSpec _ => true | _ => false end) specs = true ->
  forall tns s,
    foldM (handleSpec g) specs tns s =
    (writeAll d (map (decisionLine g) (specNames specs)) s,
     Ok (tns ++ filter (fun x => included x (Includes g) (Ignores g))
                  (specNames specs))%list).
Proof.
  intros Hd. induction specs as [| sp specs IH]; intros Hwf tns s.
  - simpl. now rewrite app_nil_r.
  - simpl in Hwf. apply andb_prop in Hwf as [Hsp Hwf].
    destruct sp as [tn | |]; try discriminate.
    change (specNames (TypeSpec tn :: specs)) with (tn :: specNames specs).
    rewrite filter_keep. simpl foldM.
    erewrite bind_Ok by (apply handleSpec_exact; exact Hd).
    rewrite (IH Hwf). now rewrite app_assoc.
Qed.

Lemma decl_exact g d decl tns s :
  DiagnosticOutput g = Some d ->
  wellFormedDecl decl = true ->
  handleDecl g tns decl s =
  (writeAll d (map (decisionLine g) (declNames decl)) s,
   Ok (tns ++ filter (fun x => included x (Includes g) (Ignores g))
                (declNames decl))%list).
Proof.
  intros Hd Hwf.
  destruct decl as [[] specs | |]; simpl;
    try (now rewrite app_nil_r).
  now apply specs_exact.
Qed.

Lemma decls_exact g d decls :
  DiagnosticOutput g = Some d ->
  forallb wellFormedDecl decls = true ->
  forall tns s,
    foldM (handleDecl g) decls tns s =
    (writeAll d (map (decisionLine g) (flat_map declNames decls)) s,
     Ok (tns ++ filter (fun x => included x (Includes g) (Ignores g))
                  (flat_map declNames decls))%list).
Proof.
  intros Hd. induction decls as [| decl decls IH]; intros Hwf tns s.
  - simpl. now rewrite app_nil_r.
  - simpl in Hwf. apply andb_prop in Hwf as [Hdecl Hwf].
    simpl foldM. erewrite bind_Ok by (apply decl_exact; eassumption).
    rewrite (IH Hwf). simpl flat_map.
    now rewrite map_app, writeAll_app, filter_app, app_assoc.
Qed.

Lemma files_exact g d files :
  DiagnosticOutput g = Some d ->
  forallb (fun a => forallb wellFormedDecl (Decls a)) files = true ->
  forall st s,
    foldM (handleFile g) files st s =
    (writeAll d
       (map (decisionLine g)
          (flat_map (fun a => flat_map declNames (Decls a)) files)) s,
     Ok (last (map Name files) (fst st),
         (snd st ++ filter (fun x => included x (Includes g) (Ignores g))
            (flat_map (fun a => flat_map declNames (Decls a)) files))%list)).
Proof.
  intros Hd. induction files as [| a files IH]; intros Hwf st s.
  - simpl. rewrite app_nil_r. now destruct st.
  - simpl in Hwf. apply andb_prop in Hwf as [Ha Hwf].
    simpl foldM. unfold handleFile at 1.
    erewrite bind_Ok;
      [| erewrite bind_Ok by (apply decls_exact; eassumption); reflexivity].
    rewrite (IH Hwf). simpl flat_map. simpl fst. simpl snd.
    rewrite map_app, writeAll_app, filter_app, app_assoc.
    f_equal. f_equal. f_equal.
    destruct files as [| f files]; [reflexivity |].
    change (map Name (a :: f :: files)) with (Name a :: map Name (f :: files)).
    change (last (Name a :: map Name (f :: files)) (fst st))
      with (last (map Name (f :: files)) (fst st)).
    apply last_nonempty_default.
Qed.

Lemma collect_exact g d p s :
  DiagnosticOutput g = Some d ->
  wellFormed p = true ->
  collect g p s =
  (writeAll d (map (decisionLine g) (declaredNames p)) s,
   Ok (lastPackageName p, acceptedNames g p)).
Proof.
  intros Hd Hwf. unfold collect.
  now rewrite (files_exact g (Syntax p) Hd Hwf).
Qed.

(** Declarations that declare no type name leave the filter silent,
    whether or not a diagnostic stream is configured. *)
Lemma decl_quiet g decl tns s :
  wellFormedDecl decl = true ->
  declNames decl = [] ->
  handleDecl g tns decl s = (s, Ok tns).
Proof.
  destruct decl as [[] specs | |]; simpl; try reflexivity.
  destruct specs as [| [tn | |] specs]; simpl; try discriminate.
  reflexivity.
Qed.

Lemma decls_quiet g decls :
  forallb wellFormedDecl decls = true ->
  flat_map declNames decls = [] ->
  forall tns s, foldM (handleDecl g) decls tns s = (s, Ok tns).
Proof.
  induction decls as [| decl decls IH]; intros Hwf Hnames tns s.
  - reflexivity.
  - simpl in Hwf, Hnames. apply andb_prop in Hwf as [Hdecl Hwf].
    apply app_eq_nil in Hnames as [Hn Hns].
    simpl foldM. erewrite bind_Ok by (now apply decl_quiet).
    now apply IH.
Qed.

Lemma files_quiet g files :
  forallb (fun a => forallb wellFormedDecl (Decls a)) files = true ->
  flat_map (fun a => flat_map declNames (Decls a)) files = [] ->
  forall st s,
    foldM (handleFile g) files st s =
    (s, Ok (last (map Name files) (fst st), snd st)).
Proof.
  induction files as [| a files IH]; intros Hwf Hnames st s.
  - simpl. now destruct st.
  - simpl in Hwf, Hnames. apply andb_prop in Hwf as [Ha Hwf].
    apply app_eq_nil in Hnames as [Hn Hns].
    simpl foldM. unfold handleFile at 1.
    erewrite bind_Ok;
      [| erewrite bind_Ok by (now apply decls_quiet); reflexivity].
    rewrite (IH Hwf Hns). simpl fst. simpl snd. f_equal. f_equal. f_equal.
    destruct files as [| f files]; [reflexivity |].
    change (map Name (a :: f :: files)) with (Name a :: map Name (f :: files)).
    change (last (Name a :: map Name (f :: files)) (fst st))
      with (last (map Name (f :: files)) (fst st)).
    apply last_nonempty_default.
Qed.

(** Without a diagnostic stream the first type name met stops the filter. *)
Lemma specs_no_stream g tn specs tns s :
  DiagnosticOutput g = None ->
  foldM (handleSpec g) (TypeSpec tn :: specs) tns s = (s, Panic NilDereference).
Proof.
  intros Hd. simpl foldM. apply bind_Panic. simpl.
  assert (Hdiag : forall ops, diag g ops s = (s, Panic NilDereference))
    by (intros ops; unfold diag; now rewrite Hd).
  destruct (anyMatch (Ignores g) tn);
    [| destruct ((0 <? List.length (Includes g))%nat && negb (anyMatch (Includes g) tn))];
    apply bind_Panic; apply Hdiag.
Qed.

Lemma decls_no_stream g decls :
  DiagnosticOutput g = None ->
  forallb wellFormedDecl decls = true ->
  flat_map declNames decls <> [] ->
  forall tns s, foldM (handleDecl g) decls tns s = (s, Panic NilDereference).
Proof.
  intros Hd. induction decls as [| decl decls IH]; intros Hwf Hnames tns s.
  - now contradiction Hnames.
  - simpl in Hwf, Hnames. apply andb_prop in Hwf as [Hdecl Hwf].
    simpl foldM.
    destruct (declNames decl) as [| tn names] eqn:Hn.
    + erewrite bind_Ok by (now apply decl_quiet). now apply IH.
    + apply bind_Panic.
      destruct decl as [[] specs | |]; simpl in Hn; try discriminate.
      destruct specs as [| [tn' | |] specs]; simpl in Hdecl; try discriminate.
      simpl handleDecl. now apply specs_no_stream.
Qed.

Lemma files_no_stream g files :
  DiagnosticOutput g = None ->
  forallb (fun a => forallb wellFormedDecl (Decls a)) files = true ->
  flat_map (fun a => flat_map declNames (Decls a)) files <> [] ->
  forall st s, foldM (handleFile g) files st s = (s, Panic NilDereference).
Proof.
  intros Hd. induction files as [| a files IH]; intros Hwf Hnames st s.
  - now contradiction Hnames.
  - simpl in Hwf, Hnames. apply andb_prop in Hwf as [Ha Hwf].
    simpl foldM. unfold handleFile at 1.
    destruct (flat_map declNames (Decls a)) as [| tn names] eqn:Hn.
    + erewrite bind_Ok;
        [| erewrite bind_Ok by (now apply decls_quiet); reflexivity].
      now apply IH.
    + apply bind_Panic. apply bind_Panic.
      apply decls_no_stream; [exact Hd | exact Ha |]. now rewrite Hn.
Qed.
End NarrationFacts.

Section FilterExtras.
Context {host : Host}.

Lemma count_occ_filter (f : string -> bool) l x :
  count_occ string_dec (filter f l) x =
  if f x then count_occ string_dec l x else 0.
Proof.
  induction l as [| y l IH]; simpl.
  - now destruct (f x).
  - destruct (f y) eqn:Ey; simpl; destruct (string_dec y x) as [-> | Hne].
    + rewrite Ey in *. now rewrite IH.
    + exact IH.
    + rewrite Ey in *. exact IH.
    + exact IH.
Qed.

Lemma included_more_ignores name includes ignores ignores' :
  incl ignores ignores' ->
  included name includes ignores' = true ->
  included name includes ignores = true.
Proof.
  intros Hincl. unfold included.
  destruct (existsb (fun r => MatchString r name) ignores') eqn:E';
    [discriminate |].
  destruct (existsb (fun r => MatchString r name) ignores) eqn:E; [| tauto].
  apply existsb_exists in E as (r & Hr & Hm).
  assert (existsb (fun r => MatchString r name) ignores' = true)
    by (apply existsb_exists; exists r; auto).
  congruence.
Qed.

Lemma included_more_includes name includes includes' ignores :
  includes <> [] ->
  incl includes includes' ->
  included name includes ignores = true ->
  included name includes' ignores = true.
Proof.
  intros Hne Hincl. unfold included.
  destruct (existsb (fun r => MatchString r name) ignores); [tauto |].
  destruct includes as [| r0 rs]; [contradiction |].
  intros H. apply existsb_exists in H as (r & Hr & Hm).
  destruct includes' as [| r0' rs']; [reflexivity |].
  apply existsb_exists. exists r. auto.
Qed.

(** X2.  On a well-formed package, with a diagnostic stream in place, the
    filter prints exactly one line per declared type name, in traversal
    order, reading [ignoring:], [not included:] or [including:] followed
    by the name, and nothing else; it returns the last file's package name
    and the accepted names. *)
Theorem filter_narrates_every_name (g : Generator) (d : Writer)
        (p : Package) (s : world) :
  DiagnosticOutput g = Some d ->
  wellFormed p = true ->
  collect g p s =
  (writeAll d (map (decisionLine g) (declaredNames p)) s,
   Ok (lastPackageName p, acceptedNames g p)).
Proof. apply collect_exact. Qed.

(** X3.  The collected names keep multiplicity: a name the Pattern Matcher
    accepts is collected as many times as it is declared, any other name
    not at all.  So a type declared in two files gets two stubs and no
    stub is made for a name that was not declared. *)
Theorem collected_names_keep_multiplicity (g : Generator) (p : Package)
        (s s' : world) (packagename : string) (typenames : list string) :
  collect g p s = (s', Ok (packagename, typenames)) ->
  forall tn,
    count_occ string_dec typenames tn =
    if included tn (Includes g) (Ignores g)
    then count_occ string_dec (declaredNames p) tn
    else 0.
Proof.
  intros H tn. apply collect_inv_Ok in H. injection H as _ ->.
  unfold acceptedNames.
  apply (count_occ_filter (fun x => included x (Includes g) (Ignores g))).
Qed.

(** X4.  The filter is monotone in its pattern lists.  With the same
    include list, more ignore patterns never let a new name through.  With
    the same ignore list, more include patterns never drop a name,
    provided the include list was not empty to begin with (an empty
    include list accepts everything, so its first pattern can only
    restrict). *)
Theorem filter_is_monotone (g g' : Generator) (p : Package)
        (s1 s1' s2 s2' : world) (pn pn' : string) (tns tns' : list string) :
  collect g p s1 = (s1', Ok (pn, tns)) ->
  collect g' p s2 = (s2', Ok (pn', tns')) ->
  (Includes g' = Includes g -> incl (Ignores g) (Ignores g') ->
   incl tns' tns) /\
  (Ignores g' = Ignores g -> Includes g <> [] ->
   incl (Includes g) (Includes g') ->
   incl tns tns').
Proof.
  intros H H'. apply collect_inv_Ok in H, H'.
  injection H as _ ->. injection H' as _ ->.
  unfold acceptedNames. split.
  - intros Hinc Hign tn Hin. apply filter_In in Hin as [Hd Hacc].
    apply filter_In. split; [exact Hd |].
    rewrite Hinc in Hacc. now apply included_more_ignores with (ignores' := Ignores g').
  - intros Hign Hne Hinc tn Hin. apply filter_In in Hin as [Hd Hacc].
    apply filter_In. split; [exact Hd |].
    rewrite Hign. now apply included_more_includes with (includes := Includes g).
Qed.

(** X5.  With no include and no ignore pattern the collected names are
    the declared type names, all of them, in traversal order. *)
Theorem no_filters_keep_every_name (g : Generator) (p : Package)
        (s s' : world) (packagename : string) (typenames : list string) :
  Includes g = [] ->
  Ignores g = [] ->
  collect g p s = (s', Ok (packagename, typenames)) ->
  typenames = declaredNames p.
Proof.
  intros Hinc Hign H. apply collect_inv_Ok in H. injection H as _ ->.
  unfold acceptedNames, included. rewrite Hinc, Hign. simpl.
  induction (declaredNames p) as [| tn l IH]; simpl; [reflexivity |].
  now rewrite IH.
Qed.

(** X6.  [HandlePackage] called on its own needs what [Generate] installs.
    Without a diagnostic stream it panics on a nil dereference at the
    first type name, before anything is written; without [Output] and
    without a sink creator it panics on the nil creator once the names are
    collected.  After the defaults of [Generate] neither field is nil. *)
Theorem HandlePackage_needs_the_defaults (g : Generator) (p : Package)
        (gofile0 : string) (rest : list string) (s : world) :
  GoFiles p = gofile0 :: rest ->
  (DiagnosticOutput g = None -> wellFormed p = true ->
   declaredNames p <> [] ->
   HandlePackage g p s = (s, Panic NilDereference)) /\
  (Output g = None -> WriteCloserCreator g = None ->
   forall s1 st,
     collect g p s = (s1, Ok st) ->
     HandlePackage g p s = (s1, Panic NilDereference)) /\
  DiagnosticOutput (withDefaults g) <> None /\
  WriteCloserCreator (withDefaults g) <> None.
Proof.
  intros Hfiles. split; [| split; [| split]].
  - intros Hd Hwf Hnames. unfold HandlePackage. rewrite Hfiles.
    apply bind_Panic. unfold collect. now apply files_no_stream.
  - intros Hout Hcreate s1 st Hc. unfold HandlePackage. rewrite Hfiles.
    erewrite bind_Ok by exact Hc. apply bind_Panic.
    unfold resolveSink. now rewrite Hout, Hcreate.
  - rewrite withDefaults_DiagnosticOutput. discriminate.
  - unfold withDefaults. destruct (WriteCloserCreator g); simpl; discriminate.
Qed.

(** X7.  A package without any type declaration still gets its artifact:
    with an [Output] configured, [HandlePackage] prints nothing to the
    diagnostic stream (it does not even need one), writes the header,
    package clause and preamble as configured, closes the sink unless
    [NoClose] is set, and returns nil. *)
Theorem package_without_types_gets_prelude (g : Generator) (p : Package)
        (gofile0 : string) (rest : list string) (w : WriteCloser)
        (s : world) :
  GoFiles p = gofile0 :: rest ->
  wellFormed p = true ->
  declaredNames p = [] ->
  Output g = Some w ->
  HandlePackage g p s =
  (finish g w (writeAll (asWriter w) (prelude g (lastPackageName p)) s),
   Ok None).
Proof.
  intros Hfiles Hwf Hnames Hout. unfold HandlePackage. rewrite Hfiles.
  erewrite bind_Ok by (unfold collect; now apply files_quiet).
  simpl fst. simpl snd. unfold resolveSink. rewrite Hout.
  erewrite bind_Ok by reflexivity.
  unfold bind. rewrite emit_writes. unfold chunks, stubs. simpl map.
  now rewrite app_nil_r.
Qed.
End FilterExtras.

(** ** Sinks, defaults and whole runs *)

Section SinkExtras.
Context {host : Host}.

Lemma withDefaults_Output g : Output (withDefaults g) = Output g.
Proof. unfold withDefaults. now destruct (WriteCloserCreator g). Qed.

Lemma withDefaults_finish g w s : finish (withDefaults g) w s = finish g w s.
Proof. unfold finish, withDefaults. now destruct (WriteCloserCreator g). Qed.

Lemma withDefaults_chunks g pn tns :
  chunks (withDefaults g) pn tns = chunks g pn tns.
Proof.
  unfold chunks, prelude, stubs, withDefaults.
  now destruct (WriteCloserCreator g).
Qed.

Lemma withDefaults_default_creator g :
  WriteCloserCreator g = None ->
  exists g1,
    WriteCloserCreator (withDefaults g) = Some (defaultwg g1) /\
    DiagnosticOutput g1 = Some (diagnosticWriter g).
Proof.
  intros H. unfold withDefaults. rewrite H. simpl. eexists. split; [reflexivity |].
  simpl. unfold diagnosticWriter. now destruct (DiagnosticOutput g).
Qed.

Lemma concat_merge_head sep a b l :
  String.concat sep ((a ++ sep ++ b) :: l) = String.concat sep (a :: b :: l).
Proof.
  destruct l as [| c l].
  - reflexivity.
  - change (String.concat sep ((a ++ sep ++ b) :: c :: l))
      with ((a ++ sep ++ b) ++ sep ++ String.concat sep (c :: l)).
    change (String.concat sep (a :: b :: c :: l))
      with (a ++ sep ++ b ++ sep ++ String.concat sep (c :: l)).
    now rewrite !append_assoc.
Qed.

(** The exact effect of [HandlePackage] when [Output] is configured. *)
Lemma HandlePackage_with_Output g d w p gofile0 rest s :
  DiagnosticOutput g = Some d ->
  Output g = Some w ->
  GoFiles p = gofile0 :: rest ->
  wellFormed p = true ->
  HandlePackage g p s =
  (finish g w
     (writeAll (asWriter w)
        (chunks g (lastPackageName p) (acceptedNames g p))
        (writeAll d (map (decisionLine g) (declaredNames p)) s)),
   Ok None).
Proof.
  intros Hd Hout Hfiles Hwf. unfold HandlePackage. rewrite Hfiles.
  erewrite bind_Ok by (apply collect_exact; eassumption).
  simpl fst. simpl snd. unfold resolveSink. rewrite Hout.
  erewrite bind_Ok by reflexivity.
  unfold bind. now rewrite emit_writes.
Qed.

Lemma healthy_inv p :
  healthy p = true ->
  Errors p = [] /\ wellFormed p = true /\
  exists gofile0 rest, GoFiles p = gofile0 :: rest.
Proof.
  unfold healthy. destruct (Errors p); [| discriminate].
  destruct (GoFiles p) as [| f fs]; [discriminate |].
  intros H. repeat split; auto. now exists f, fs.
Qed.

Lemma packageLoop_healthy g d w ps :
  DiagnosticOutput g = Some d ->
  Output g = Some w ->
  forallb healthy ps = true ->
  forall i reterr s,
    i + List.length ps <= List.length (Patterns g) ->
    exists s', packageLoop g i ps reterr s = (s', Ok reterr).
Proof.
  intros Hd Hout. induction ps as [| p ps IH]; intros Hh i reterr s Hlen.
  - now exists s.
  - simpl in Hh. apply andb_prop in Hh as [Hp Hh].
    apply healthy_inv in Hp as (Herr & Hwf & f & fs & Hfiles).
    simpl in Hlen.
    destruct (nth_error (Patterns g) i) as [pat |] eqn:Hpat;
      [| apply nth_error_None in Hpat; lia].
    destruct (IH Hh (S i) reterr
                (finish g w
                   (writeAll (asWriter w)
                      (chunks g (lastPackageName p) (acceptedNames g p))
                      (writeAll d (map (decisionLine g) (declaredNames p))
                         (fst (Write d (Sprintln ["package with pattern"; pat]) s))))))
      as [s' Hs']; [lia |].
    exists s'. simpl packageLoop.
    erewrite bind_Ok; [exact Hs' |].
    apply (handleLoaded_handled g i reterr p s Hd Hpat Herr
             (HandlePackage_with_Output g p _ Hd Hout Hfiles Hwf)).
Qed.

(** X8.  When the sink creator returns an error, [HandlePackage] returns
    that error right after the creator ran: nothing is written and nothing
    is closed, not even a sink the creator may have returned along with
    the error.  In the loop the error is joined and the remaining packages
    are processed. *)
Theorem creator_error_is_returned
        (g : Generator) (p : Package) (create : WriteCloserCreatorT)
        (gofile0 : string) (files : list string)
        (packagename : string) (typenames : list string)
        (w : option WriteCloser) (err : error) (s s1 s2 : world) :
  GoFiles p = gofile0 :: files ->
  Output g = None ->
  WriteCloserCreator g = Some create ->
  collect g p s = (s1, Ok (packagename, typenames)) ->
  create (filepath_Dir gofile0) packagename s1 = (s2, Ok (w, Some err)) ->
  HandlePackage g p s = (s2, Ok (Some err)) /\
  (forall d i pat rest reterr s0,
      DiagnosticOutput g = Some d ->
      nth_error (Patterns g) i = Some pat ->
      Errors p = [] ->
      s = fst (Write d (Sprintln ["package with pattern"; pat]) s0) ->
      packageLoop g i (p :: rest) reterr s0 =
      packageLoop g (S i) rest (errors_Join [reterr; Some err])
        (fst (Write d (Sprintln ["generate error:"; Error err]) s2))).
Proof.
  intros Hfiles Hout Hcreate Hc Herr.
  assert (HP : HandlePackage g p s = (s2, Ok (Some err))).
  { unfold HandlePackage. rewrite Hfiles.
    erewrite bind_Ok by exact Hc. simpl fst.
    assert (Hr : resolveSink g gofile0 packagename s1 = (s2, Ok (inl err))).
    { unfold resolveSink. rewrite Hout, Hcreate.
      erewrite bind_Ok by exact Herr. now destruct w. }
    now erewrite bind_Ok by exact Hr. }
  split; [exact HP |].
  intros d i pat rest reterr s0 Hd Hpat Hno ->. simpl packageLoop.
  erewrite bind_Ok
    by (apply (handleLoaded_handled g i reterr p s0 Hd Hpat Hno HP)).
  reflexivity.
Qed.

(** X9.  With neither [Output] nor a sink creator configured, the
    generator that [Generate] runs creates the file
    [Join(Dir(first source file), Sprintf(FormatFilename, package name))].
    If creating it fails, the error is printed to the diagnostic stream
    and returned, and nothing is emitted; otherwise the file name is
    printed and the artifact goes to that file.  The default creator never
    returns a nil sink without an error. *)
Theorem default_creator_names_the_file
        (g : Generator) (p : Package) (gofile0 : string) (files : list string)
        (packagename : string) (typenames : list string) (s s1 : world) :
  GoFiles p = gofile0 :: files ->
  Output g = None ->
  WriteCloserCreator g = None ->
  collect (withDefaults g) p s = (s1, Ok (packagename, typenames)) ->
  let fn := filepath_Join (filepath_Dir gofile0)
              (Sprintf FormatFilename [packagename]) in
  let d := diagnosticWriter g in
  (forall s2 err,
      os_Create fn s1 = (s2, inr err) ->
      HandlePackage (withDefaults g) p s =
      (fst (Write d (Sprintln [Error err]) s2), Ok (Some err))) /\
  (forall s2 w,
      os_Create fn s1 = (s2, inl w) ->
      HandlePackage (withDefaults g) p s =
      (finish g w
         (writeAll (asWriter w) (chunks g packagename typenames)
            (fst (Write d (Sprintln ["writing file:"; fn]) s2))),
       Ok None)).
Proof.
  intros Hfiles Hout Hcreate Hc fn d.
  destruct (withDefaults_default_creator g Hcreate) as (g1 & Hdef & Hd1).
  assert (Hout' : Output (withDefaults g) = None)
    by now rewrite withDefaults_Output.
  split.
  - intros s2 err Hos.
    assert (Hw : defaultwg g1 (filepath_Dir gofile0) packagename s1 =
                 (fst (Write d (Sprintln [Error err]) s2), Ok (None, Some err))).
    { unfold defaultwg. fold fn. rewrite Hos.
      now erewrite bind_Ok by (apply diag_Some; exact Hd1). }
    assert (Hr : resolveSink (withDefaults g) gofile0 packagename s1 =
                 (fst (Write d (Sprintln [Error err]) s2), Ok (inl err))).
    { unfold resolveSink. rewrite Hout', Hdef.
      now erewrite bind_Ok by exact Hw. }
    unfold HandlePackage. rewrite Hfiles.
    erewrite bind_Ok by exact Hc. simpl fst.
    now erewrite bind_Ok by exact Hr.
  - intros s2 w Hos.
    assert (Hw : defaultwg g1 (filepath_Dir gofile0) packagename s1 =
                 (fst (Write d (Sprintln ["writing file:"; fn]) s2),
                  Ok (Some w, None))).
    { unfold defaultwg. fold fn. rewrite Hos.
      now erewrite bind_Ok by (apply diag_Some; exact Hd1). }
    assert (Hr : resolveSink (withDefaults g) gofile0 packagename s1 =
                 (fst (Write d (Sprintln ["writing file:"; fn]) s2),
                  Ok (inr w))).
    { unfold resolveSink. rewrite Hout', Hdef.
      now erewrite bind_Ok by exact Hw. }
    unfold HandlePackage. rewrite Hfiles.
    erewrite bind_Ok by exact Hc. simpl fst. simpl snd.
    erewrite bind_Ok by exact Hr.
    unfold bind. rewrite emit_writes.
    now rewrite withDefaults_finish, withDefaults_chunks.
Qed.

(** X10.  The message of an accumulated error lists, one per line and in
    the order they were joined, the message of the error accumulated
    before and the message of every error joined since. *)
Theorem joined_message_lists_every_error
        (reterr : option error) (errs : list error) (e : error) :
  joinEach reterr errs = Some e ->
  Error e = String.concat nl (messageLines reterr errs).
Proof.
  revert reterr. induction errs as [| e1 errs IH]; intros reterr H.
  - simpl in H. subst reterr. reflexivity.
  - simpl in H. apply IH in H. rewrite H. unfold messageLines.
    destruct reterr as [r |]; unfold errors_Join; simpl flat_map.
    + change (Error (joinError [r; e1])) with (Error r ++ nl ++ Error e1).
      apply (concat_merge_head nl (Error r) (Error e1) (map Error errs)).
    + reflexivity.
Qed.

(** X11.  The defaults of [Generate] are stable: installing them twice is
    installing them once, so running [Generate] on a generator that
    already carries them (as the receiver does after a first run) behaves
    as running it on the original configuration. *)
Theorem Generate_defaults_are_stable (g : Generator) (s : world) :
  withDefaults (withDefaults g) = withDefaults g /\
  Generate (withDefaults g) s = Generate g s.
Proof.
  assert (H : withDefaults (withDefaults g) = withDefaults g).
  { unfold withDefaults.
    destruct (WriteCloserCreator g) eqn:Ec, (DiagnosticOutput g) eqn:Ed;
      simpl; rewrite ?Ec; reflexivity. }
  split; [exact H |]. unfold Generate. now rewrite H.
Qed.

(** X12.  A run over healthy packages returns nil: when the loader
    resolves at least one package and no more packages than there are
    patterns, an [Output] is configured, and every package is free of load
    diagnostics, has a source file and is well formed, [Generate] neither
    panics nor reports an error. *)
Theorem Generate_succeeds_on_healthy_packages
        (g : Generator) (w : WriteCloser) (s s1 : world)
        (ps : list Package) :
  packages_Load (Patterns g) s = (s1, (ps, None)) ->
  ps <> [] ->
  List.length ps <= List.length (Patterns g) ->
  Output g = Some w ->
  forallb healthy ps = true ->
  exists s', Generate g s = (s', Ok None).
Proof.
  intros Hload Hne Hlen Hout Hh.
  destruct ps as [| p ps]; [contradiction |].
  rewrite (Generate_loaded g s Hload).
  apply packageLoop_healthy
    with (d := diagnosticWriter g) (w := w).
  - apply withDefaults_DiagnosticOutput.
  - now rewrite withDefaults_Output.
  - exact Hh.
  - rewrite withDefaults_Patterns. simpl in *. lia.
Qed.
End SinkExtras.

(** ** The buffer of the tests *)

Lemma writeAll_buffer texts : forall s,
  writeAll (host := Fixture.host) Fixture.BufferW texts s =
  Fixture.mkState (Fixture.b s ++ String.concat "" texts) (Fixture.history s)
    (Fixture.diagnostics s) (Fixture.attempts s) (Fixture.closes s)
    (Fixture.loaded s).
Proof.
  induction texts as [| text texts IH]; intros s.
  - simpl. rewrite append_nil_r. now destruct s.
  - change (writeAll (host := Fixture.host) Fixture.BufferW (text :: texts) s)
      with (writeAll (host := Fixture.host) Fixture.BufferW texts
              (fst (Fixture.write Fixture.BufferW text s))).
    rewrite IH. simpl. f_equal. rewrite append_assoc. f_equal.
    destruct texts as [| t texts]; simpl; [now rewrite append_nil_r | reflexivity].
Qed.

Lemma writeAll_stderr lines : forall s,
  writeAll (host := Fixture.host) Fixture.Stderr lines s =
  Fixture.mkState (Fixture.b s) (Fixture.history s)
    (Fixture.diagnostics s ++ lines)%list (Fixture.attempts s)
    (Fixture.closes s) (Fixture.loaded s).
Proof.
  induction lines as [| line lines IH]; intros s.
  - simpl. rewrite app_nil_r. now destruct s.
  - change (writeAll (host := Fixture.host) Fixture.Stderr (line :: lines) s)
      with (writeAll (host := Fixture.host) Fixture.Stderr lines
              (fst (Fixture.write Fixture.Stderr line s))).
    rewrite IH. simpl. now rewrite <- app_assoc.
Qed.

(** X13.  [MultiBuffer] gives back what it was given: a write never
    fails, and closing after any sequence of writes appends to the history
    exactly the text buffered before followed by the written texts in
    order, and empties the buffer. *)
Theorem MultiBuffer_records_what_was_written
        (texts : list string) (s : Fixture.state) :
  (forall text s0, snd (Fixture.write Fixture.BufferW text s0) = None) /\
  Fixture.close Fixture.MultiBuffer
    (writeAll (host := Fixture.host) Fixture.BufferW texts s) =
  (Fixture.mkState ""
     (Fixture.history s ++ [(Fixture.b s ++ String.concat "" texts)%string])%list
     (Fixture.diagnostics s) (Fixture.attempts s) (Fixture.closes s)
     (Fixture.loaded s),
   None).
Proof.
  split; [reflexivity |]. now rewrite writeAll_buffer.
Qed.

(** X14.  Read back from a [MultiBuffer], the artifact of a package is the
    header, the package clause, the preamble and the stubs, concatenated in
    that order: a successful [HandlePackage] adds exactly that text to the
    history, after whatever the buffer held, and leaves the buffer
    empty. *)
Theorem artifact_is_the_concatenated_texts
        (g : Generator (host := Fixture.host)) (p : Package)
        (gofile0 : string) (rest : list string) (s : Fixture.state) :
  DiagnosticOutput g = Some Fixture.Stderr ->
  Output g = Some Fixture.MultiBuffer ->
  NoClose g = false ->
  GoFiles p = gofile0 :: rest ->
  wellFormed p = true ->
  exists s',
    HandlePackage g p s = (s', Ok None) /\
    Fixture.history s' =
      (Fixture.history s ++
       [(Fixture.b s ++
         String.concat "" (chunks g (lastPackageName p) (acceptedNames g p)))%string])%list /\
    Fixture.b s' = "".
Proof.
  intros Hd Hout Hclose Hfiles Hwf.
  eexists. split.
  - apply (HandlePackage_with_Output g p s Hd Hout Hfiles Hwf).
  - unfold finish. rewrite Hclose.
    change (@asWriter Fixture.host Fixture.MultiBuffer) with Fixture.BufferW.
    rewrite writeAll_buffer, writeAll_stderr. simpl. split; reflexivity.
Qed.

(** ** The further properties on concrete packages *)

(** X2 on the "include and ignore" case of the tests. *)
Lemma filter_narrates_every_name_witness :
  collect (host := Fixture.host)
    (Fixture.withFilters [Fixture.Sub "String"; Fixture.Anchored "Int"]
       [Fixture.Sub "String"])
    Fixture.pkgOne (Fixture.start [] None) =
  (Fixture.mkState "" []
     ["including: Int" ++ nl; "ignoring: String" ++ nl;
      "not included: Struct" ++ nl] [] 0 ([], None),
   Ok ("one", ["Int"])).
Proof.
  apply (@filter_narrates_every_name Fixture.host
           (Fixture.withFilters [Fixture.Sub "String"; Fixture.Anchored "Int"]
              [Fixture.Sub "String"])
           Fixture.Stderr Fixture.pkgOne (Fixture.start [] None)).
  - reflexivity.
  - reflexivity.
Defined.

(** X3 on a type declared in two files of one package. *)
Lemma collected_names_keep_multiplicity_witness :
  count_occ string_dec ["T"; "T"] "T" = 2.
Proof.
  apply (@collected_names_keep_multiplicity Fixture.host Fixture.base
           (mkPackage ["a.go"; "b.go"]
              [mkFile "dup" [GenDecl TYPE [TypeSpec "T"]];
               mkFile "dup" [GenDecl TYPE [TypeSpec "T"]]] [])
           (Fixture.start [] None)
           (Fixture.mkState "" [] ["including: T" ++ nl; "including: T" ++ nl]
              [] 0 ([], None))
           "dup" ["T"; "T"]).
  reflexivity.
Defined.

(** X4: adding the ignore pattern [ring] to no filters at all. *)
Lemma filter_is_monotone_witness :
  incl ["Int"; "Struct"] ["Int"; "String"; "Struct"].
Proof.
  refine (proj1 (@filter_is_monotone Fixture.host
                   (Fixture.withFilters [] [])
                   (Fixture.withFilters [] [Fixture.Sub "ring"])
                   Fixture.pkgOne
                   (Fixture.start [] None)
                   (Fixture.mkState "" []
                      ["including: Int" ++ nl; "including: String" ++ nl;
                       "including: Struct" ++ nl] [] 0 ([], None))
                   (Fixture.start [] None)
                   (Fixture.mkState "" []
                      ["including: Int" ++ nl; "ignoring: String" ++ nl;
                       "including: Struct" ++ nl] [] 0 ([], None))
                   "one" "one" ["Int"; "String"; "Struct"] ["Int"; "Struct"]
                   _ _) _ _).
  - reflexivity.
  - reflexivity.
  - reflexivity.
  - intros r [].
Defined.

(** X5 on the "accept all" case of the tests. *)
Lemma no_filters_keep_every_name_witness :
  ["Int"; "String"; "Struct"] = declaredNames Fixture.pkgOne.
Proof.
  apply (@no_filters_keep_every_name Fixture.host Fixture.base Fixture.pkgOne
           (Fixture.start [] None)
           (Fixture.mkState "" []
              ["including: Int" ++ nl; "including: String" ++ nl;
               "including: Struct" ++ nl] [] 0 ([], None))
           "one" ["Int"; "String"; "Struct"]).
  - reflexivity.
  - reflexivity.
  - reflexivity.
Defined.

(** X6 on a generator whose [DiagnosticOutput] was left nil. *)
Lemma HandlePackage_needs_the_defaults_witness :
  HandlePackage (host := Fixture.host)
    (mkGenerator (host := Fixture.host) ["p"] [] [] ("%s,%s" ++ nl) None
       (Some Fixture.MultiBuffer) None false "" "" false)
    Fixture.pkgOne (Fixture.start [] None) =
  (Fixture.start [] None, Panic NilDereference).
Proof.
  apply (proj1 (@HandlePackage_needs_the_defaults Fixture.host
                  (mkGenerator (host := Fixture.host) ["p"] [] [] ("%s,%s" ++ nl)
                     None (Some Fixture.MultiBuffer) None false "" "" false)
                  Fixture.pkgOne "testdata/one/one.go" []
                  (Fixture.start [] None) eq_refl)).
  - reflexivity.
  - reflexivity.
  - discriminate.
Defined.

(** X7 on a file that declares a function and a variable only. *)
Lemma package_without_types_gets_prelude_witness :
  HandlePackage (host := Fixture.host)
    (Fixture.withCreator None (Some Fixture.MultiBuffer) ["p"])
    (mkPackage ["e/e.go"] [mkFile "e" [FuncDecl; GenDecl VAR [ValueSpec]]] [])
    (Fixture.start [] None) =
  (Fixture.mkState ""
     [("// the header" ++ nl) ++ ("package e" ++ nl ++ nl) ++
      ("import fmt" ++ nl ++ nl)]
     [] [] 0 ([], None),
   Ok None).
Proof.
  apply (@package_without_types_gets_prelude Fixture.host
           (Fixture.withCreator None (Some Fixture.MultiBuffer) ["p"])
           (mkPackage ["e/e.go"] [mkFile "e" [FuncDecl; GenDecl VAR [ValueSpec]]] [])
           "e/e.go" [] Fixture.MultiBuffer (Fixture.start [] None)).
  - reflexivity.
  - reflexivity.
  - reflexivity.
  - reflexivity.
Defined.

(** X8 with a creator that returns a sink together with an error. *)
Lemma creator_error_is_returned_witness :
  HandlePackage (host := Fixture.host)
    (Fixture.withCreator
       (Some (Fixture.creator (Some Fixture.MultiBuffer)
                (Some (otherError "disk full")))) None ["p"])
    Fixture.pkgOne (Fixture.start [] None) =
  (Fixture.mkState "" []
     ["including: Int" ++ nl; "including: String" ++ nl;
      "including: Struct" ++ nl] [] 0 ([], None),
   Ok (Some (otherError "disk full"))).
Proof.
  apply (proj1 (@creator_error_is_returned Fixture.host
                  (Fixture.withCreator
                     (Some (Fixture.creator (Some Fixture.MultiBuffer)
                              (Some (otherError "disk full")))) None ["p"])
                  Fixture.pkgOne
                  (Fixture.creator (Some Fixture.MultiBuffer)
                     (Some (otherError "disk full")))
                  "testdata/one/one.go" [] "one" ["Int"; "String"; "Struct"]
                  (Some Fixture.MultiBuffer) (otherError "disk full")
                  (Fixture.start [] None)
                  (Fixture.mkState "" []
                     ["including: Int" ++ nl; "including: String" ++ nl;
                      "including: Struct" ++ nl] [] 0 ([], None))
                  (Fixture.mkState "" []
                     ["including: Int" ++ nl; "including: String" ++ nl;
                      "including: Struct" ++ nl] [] 0 ([], None))
                  eq_refl eq_refl eq_refl eq_refl eq_refl)).
Defined.

(** X9 with no [Output] and no creator: the file is created next to the
    first source file and named after the package. *)
Lemma default_creator_names_the_file_witness :
  HandlePackage (host := Fixture.host)
    (withDefaults (Fixture.withCreator None None ["p"]))
    Fixture.pkgTwo (Fixture.start [] None) =
  (Fixture.mkState ""
     [("// the header" ++ nl) ++ ("package two" ++ nl ++ nl) ++
      ("import fmt" ++ nl ++ nl) ++ ("FIRST,FIRST" ++ nl) ++
      ("SECOND,SECOND" ++ nl)]
     ["including: FIRST" ++ nl; "including: SECOND" ++ nl;
      Sprintln ["writing file:";
                filepath_Join (Host := Fixture.host)
                  (filepath_Dir (Host := Fixture.host) "testdata/two/two1.go")
                  "two_strings.go"]]
     [] 0 ([], None),
   Ok None).
Proof.
  apply (proj2 (@default_creator_names_the_file Fixture.host
                  (Fixture.withCreator None None ["p"]) Fixture.pkgTwo
                  "testdata/two/two1.go" ["testdata/two/two2.go"]
                  "two" ["FIRST"; "SECOND"] (Fixture.start [] None)
                  (Fixture.mkState "" []
                     ["including: FIRST" ++ nl; "including: SECOND" ++ nl]
                     [] 0 ([], None))
                  eq_refl eq_refl eq_refl eq_refl)
           (Fixture.mkState "" []
              ["including: FIRST" ++ nl; "including: SECOND" ++ nl]
              [] 0 ([], None))
           Fixture.MultiBuffer).
  reflexivity.
Defined.

(** X10 on an error joined twice more. *)
Lemma joined_message_lists_every_error_witness :
  Error (joinError [joinError [errorString "first"; otherError "second"];
                    otherError "third"]) =
  "first" ++ nl ++ "second" ++ nl ++ "third".
Proof.
  apply (joined_message_lists_every_error
           (Some (errorString "first"))
           [otherError "second"; otherError "third"]).
  reflexivity.
Defined.

(** X12 on the two healthy packages of the tests. *)
Lemma Generate_succeeds_on_healthy_packages_witness :
  exists s',
    Generate (host := Fixture.host)
      (Fixture.withCreator None (Some Fixture.MultiBuffer) ["p"; "q"])
      (Fixture.start [Fixture.pkgOne; Fixture.pkgTwo] None) = (s', Ok None).
Proof.
  apply (@Generate_succeeds_on_healthy_packages Fixture.host
           (Fixture.withCreator None (Some Fixture.MultiBuffer) ["p"; "q"])
           Fixture.MultiBuffer
           (Fixture.start [Fixture.pkgOne; Fixture.pkgTwo] None)
           (Fixture.start [Fixture.pkgOne; Fixture.pkgTwo] None)
           [Fixture.pkgOne; Fixture.pkgTwo]).
  - reflexivity.
  - discriminate.
  - simpl. lia.
  - reflexivity.
  - reflexivity.
Defined.

(** X14 on the two-file package of the tests, the buffer holding a
    leftover. *)
Lemma artifact_is_the_concatenated_texts_witness :
  exists s',
    HandlePackage (host := Fixture.host)
      (Fixture.withCreator None (Some Fixture.MultiBuffer) ["p"])
      Fixture.pkgTwo
      (Fixture.mkState "left over " [] [] [] 0 ([], None)) = (s', Ok None) /\
    Fixture.history s' =
      ["left over " ++ ("// the header" ++ nl) ++ ("package two" ++ nl ++ nl) ++
       ("import fmt" ++ nl ++ nl) ++ ("FIRST,FIRST" ++ nl) ++
       ("SECOND,SECOND" ++ nl)] /\
    Fixture.b s' = "".
Proof.
  apply (@artifact_is_the_concatenated_texts
           (Fixture.withCreator None (Some Fixture.MultiBuffer) ["p"])
           Fixture.pkgTwo "testdata/two/two1.go" ["testdata/two/two2.go"]
           (Fixture.mkState "left over " [] [] [] 0 ([], None))).
  - reflexivity.
  - reflexivity.
  - reflexivity.
  - reflexivity.
  - reflexivity.
Defined.

(** ** Fields that do not matter *)

Section FieldExtras.
Context {host : Host}.

(** X15.  When [Output] is configured the sink creator plays no part:
    [HandlePackage] does the same, to the world and in what it returns,
    whatever the [WriteCloserCreator] field holds, nil included. *)
Theorem Output_bypasses_the_creator (g : Generator) (w : WriteCloser)
        (c : option WriteCloserCreatorT) (p : Package) (s : world) :
  Output g = Some w ->
  HandlePackage (withWriteCloserCreator g c) p s = HandlePackage g p s.
Proof.
  intros Hout. unfold HandlePackage.
  destruct (GoFiles p) as [| gofile0 rest]; [reflexivity |].
  change (collect (withWriteCloserCreator g c) p) with (collect g p).
  unfold bind. destruct (collect g p s) as [s1 [st | v]]; [| reflexivity].
  unfold resolveSink.
  change (Output (withWriteCloserCreator g c)) with (Output g).
  rewrite Hout. reflexivity.
Qed.

(** X16.  [NoClose] changes nothing but the final [Close]: if
    [HandlePackage] succeeds with [NoClose] set and leaves the world [s'],
    then with [NoClose] cleared it succeeds too and leaves [s'] after one
    [Close] of the sink it wrote to. *)
Theorem NoClose_only_skips_the_close (g : Generator) (p : Package)
        (s s' : world) :
  NoClose g = true ->
  HandlePackage g p s = (s', Ok None) ->
  exists w,
    HandlePackage (withNoClose g false) p s = (fst (Close w s'), Ok None).
Proof.
  intros Hnc H.
  apply HandlePackage_inv_None in H
    as (gofile0 & rest & s1 & s2 & w & Hfiles & Hc & Hr & ->).
  exists w. unfold HandlePackage. rewrite Hfiles.
  change (collect (withNoClose g false) p) with (collect g p).
  erewrite bind_Ok by exact Hc. simpl fst. simpl snd.
  change (resolveSink (withNoClose g false)) with (resolveSink g).
  erewrite bind_Ok by exact Hr.
  unfold bind. rewrite emit_writes.
  unfold finish. rewrite Hnc. reflexivity.
Qed.
End FieldExtras.

(** X15 with a creator that would break the contract. *)
Lemma Output_bypasses_the_creator_witness :
  HandlePackage (host := Fixture.host)
    (withWriteCloserCreator
       (Fixture.withCreator None (Some Fixture.MultiBuffer) ["p"])
       (Some (Fixture.creator None None)))
    Fixture.pkgOne (Fixture.start [] None) =
  HandlePackage (host := Fixture.host)
    (Fixture.withCreator None (Some Fixture.MultiBuffer) ["p"])
    Fixture.pkgOne (Fixture.start [] None).
Proof.
  apply (@Output_bypasses_the_creator Fixture.host
           (Fixture.withCreator None (Some Fixture.MultiBuffer) ["p"])
           Fixture.MultiBuffer (Some (Fixture.creator None None))
           Fixture.pkgOne (Fixture.start [] None)).
  reflexivity.
Defined.

(** X16 on the sink that records its [Close] calls. *)
Lemma NoClose_only_skips_the_close_witness :
  exists w,
    HandlePackage (host := Fixture.host)
      (withNoClose
         (withNoClose (Fixture.withCreator None (Some Fixture.FailingSink) ["p"])
            true)
         false)
      Fixture.pkgTwo (Fixture.start [] None) =
    (fst (Fixture.close w
            (Fixture.mkState "" []
               ["including: FIRST" ++ nl; "including: SECOND" ++ nl]
               ["// the header" ++ nl; "package two" ++ nl ++ nl;
                "import fmt" ++ nl ++ nl; "FIRST,FIRST" ++ nl;
                "SECOND,SECOND" ++ nl]
               0 ([], None))),
     Ok None).
Proof.
  apply (@NoClose_only_skips_the_close Fixture.host
           (withNoClose (Fixture.withCreator None (Some Fixture.FailingSink) ["p"])
              true)
           Fixture.pkgTwo (Fixture.start [] None)).
  - reflexivity.
  - reflexivity.
Defined.
